(** * NASDAQ-Analysis: the data pipeline of [Main.py]

    A shallow embedding of [FinancialDataAnalyzer] (src/Main.py): the
    constructor, [process_data] (frame construction, date coercion, column
    projection, country remap, renaming, filtering), [_get_country_mapping]
    and the two series computed by [visualize_trends] (per-date mean and
    the centred rolling mean), [authenticate], [fetch_data], [run] and
    [main].

    Modelling conventions.
    - A value of the datatable is a [cell]: JSON null, a number or a string;
      a frame may also hold the timestamps produced by [pd.to_datetime].  A
      number of the response is the rational that its JSON text denotes.
    - pandas computes the means in float64.  Which values are averaged, in
      which order, and when a result is missing is modelled here; the
      rounded sum and quotient themselves are what pandas returns, a
      parameter ([float_means]).  A value of a series is a rational (every
      finite float64 is one) or nothing.  The dtype that pandas chooses for a
      column is not modelled.
    - An exception raised inside the [try] block of [process_data] is a
      value of [exn]; a computation that may raise has type [exn + A].
    - pandas' string-to-date parser is a parameter ([parse_datetime]); the
      [config] module, which is not part of the sources, is a parameter too.
    - Console output is not modelled.  The keyboard, the remote server and
      the screen are a [World]: [authenticate], [fetch_data] and [run] read
      what the user types, send a request and get its outcome, and show the
      chart, threading the world through.  The body of a response is a
      datatable, or some other JSON value, or no JSON at all. *)

From Stdlib Require Import ZArith QArith List Sorted Ascii String Bool Lia SpecFloat.
From stdpp Require Import gmap strings list fin_maps.
Import ListNotations.

Local Open Scope string_scope.
Local Open Scope list_scope.

(** ** Values, exceptions *)

Inductive cell : Type :=
| CNull                    (* JSON null / None / NaN *)
| CNum (q : Q)             (* JSON number *)
| CStr (s : string)        (* JSON string *)
| CTimestamp (ns : Z)      (* pandas Timestamp, nanoseconds since the epoch *)
| CNaT.                    (* pandas NaT, the missing date *)

(** The exceptions that pandas raises here; messages are shortened. *)
Inductive exn : Type :=
| KeyError (key : string)
| ValueError (msg : string)
| TypeError (msg : string).

Definition result (A : Type) : Type := (exn + A)%type.

Definition ret {A} (a : A) : result A := inr a.
Definition raise {A} (e : exn) : result A := inl e.
Definition bind {A B} (m : result A) (k : A -> result B) : result B :=
  match m with
  | inl e => inl e
  | inr a => k a
  end.

Notation "'let*' x ':=' m 'in' k" := (bind m (fun x => k))
  (at level 10, x name, m at level 100, k at level 200, only parsing).

Fixpoint mapM {A B} (f : A -> result B) (l : list A) : result (list B) :=
  match l with
  | [] => ret []
  | a :: l' => let* b := f a in let* bs := mapM f l' in ret (b :: bs)
  end.

(** ** The country dictionary (Main.py 211-242) *)

(** The dict literal, entry by entry. *)
Definition country_items : list (string * string) :=
  [ ("AUS", "Australia");
    ("BEL", "Belgium");
    ("BHS", "Bahamas");
    ("BMU", "Bermuda");
    ("BRA", "Brazil");
    ("CAN", "Canada");
    ("CHE", "Switzerland");
    ("CHL", "Chile");
    ("CYM", "Cayman Islands");
    ("DEU", "Germany");
    ("DNK", "Denmark");
    ("ESP", "Spain");
    ("FIN", "Finland");
    ("FRA", "France");
    ("GBR", "United Kingdom");
    ("HKG", "Hong Kong");
    ("IDN", "Indonesia");
    ("IND", "India");
    ("IRL", "Ireland");
    ("ISR", "Israel");
    ("ITA", "Italy");
    ("JPN", "Japan");
    ("KOR", "South Korea");
    ("LBR", "Liberia");
    ("PAN", "Panama");
    ("USA", "United States");
    ("VGB", "British Virgin Islands") ].

(** A Python dict display inserts its entries from left to right; a later
    entry with the same key overwrites an earlier one. *)
Definition dict_of_items (items : list (string * string)) : gmap string string :=
  fold_left (fun m kv => <[ fst kv := snd kv ]> m) items ∅.

Definition _get_country_mapping : gmap string string :=
  dict_of_items country_items.

(** [Series.replace(mapping)] on one value: a value equal to a key becomes
    the associated value, every other value is kept.  All keys are strings,
    so only a string can be equal to one. *)
Definition replace_str (mapping : gmap string string) (code : string) : string :=
  match mapping !! code with
  | Some display => display
  | None => code
  end.

Definition replace_cell (mapping : gmap string string) (c : cell) : cell :=
  match c with
  | CStr code => CStr (replace_str mapping code)
  | _ => c
  end.

(** The country remap of one code (Main.py 137-138). *)
Definition country_remap (code : string) : string :=
  replace_str _get_country_mapping code.

(** ** Frames (the part of pandas that [process_data] uses) *)

(** A frame: column labels, and the rows, each with its index label.  The
    column labels need not be distinct. *)
Record DataFrame : Type := {
  df_columns : list string;
  df_rows : list (nat * list cell)
}.

(** What [df[key]] gives for a single label: a Series when the label names
    one column, a frame (here the list of its columns) when it names
    several. *)
Inductive selection : Type :=
| Series (vals : list cell)
| SubFrame (cols : list (list cell)).

Definition width (data : list (list cell)) : nat :=
  fold_right (fun row w => Nat.max (length row) w) 0%nat data.

Definition pad (w : nat) (row : list cell) : list cell :=
  row ++ repeat CNull (w - length row).

(** [pd.DataFrame(data, columns=columns)] for a list of rows: an empty list
    gives an empty frame with the given columns; otherwise short rows are
    filled with missing values up to the longest one, and the number of
    labels must be that width.  The index is 0, 1, 2, ... *)
Definition DataFrame_new (data : list (list cell)) (columns : list string)
  : result DataFrame :=
  match data with
  | [] => ret {| df_columns := columns; df_rows := [] |}
  | _ =>
      if Nat.eqb (length columns) (width data)
      then ret {| df_columns := columns;
                  df_rows := combine (seq 0 (length data))
                                     (map (pad (width data)) data) |}
      else raise (ValueError "columns passed, passed data had a different number of columns")
  end.

(** The positions of a label among the column labels. *)
Fixpoint positions_from (i : nat) (key : string) (cols : list string) : list nat :=
  match cols with
  | [] => []
  | c :: cols' =>
      if String.eqb c key then i :: positions_from (S i) key cols'
      else positions_from (S i) key cols'
  end.

Definition positions (key : string) (cols : list string) : list nat :=
  positions_from 0 key cols.

Definition cell_at (j : nat) (row : list cell) : cell := nth j row CNull.

Definition column (j : nat) (df : DataFrame) : list cell :=
  map (fun r => cell_at j (snd r)) (df_rows df).

(** [df[key]] *)
Definition getitem (df : DataFrame) (key : string) : result selection :=
  match positions key (df_columns df) with
  | [] => raise (KeyError key)
  | [j] => ret (Series (column j df))
  | js => ret (SubFrame (map (fun j => column j df) js))
  end.

(** Writing the values [vals], one per row, into column [j]. *)
Fixpoint set_column (j : nat) (vals : list cell) (rows : list (nat * list cell))
  : list (nat * list cell) :=
  match rows, vals with
  | (i, row) :: rows', v :: vals' => (i, <[ j := v ]> row) :: set_column j vals' rows'
  | _, _ => rows
  end.

Fixpoint set_columns (js : list nat) (cols : list (list cell))
  (rows : list (nat * list cell)) : list (nat * list cell) :=
  match js, cols with
  | j :: js', vals :: cols' => set_columns js' cols' (set_column j vals rows)
  | _, _ => rows
  end.

(** [df[key] = value].  A new label appends a column; a Series is written
    to every column that carries the label; a frame must have one column
    per column that carries the label. *)
Definition setitem (df : DataFrame) (key : string) (value : selection)
  : result DataFrame :=
  match positions key (df_columns df), value with
  | [], Series vals =>
      ret {| df_columns := df_columns df ++ [key];
             df_rows := set_column (length (df_columns df)) vals
                          (map (fun r => (fst r, snd r ++ [CNull])) (df_rows df)) |}
  | js, Series vals =>
      ret {| df_columns := df_columns df;
             df_rows := set_columns js (map (fun _ => vals) js) (df_rows df) |}
  | js, SubFrame cols =>
      if Nat.eqb (length js) (length cols)
      then ret {| df_columns := df_columns df;
                  df_rows := set_columns js cols (df_rows df) |}
      else raise (ValueError "Columns must be same length as key")
  end.

(** [df[keys]] for a list of labels: every label must be present (the
    error names the first missing one); the result has, for each label in
    turn, all the columns that carry it. *)
Definition getitem_list (df : DataFrame) (keys : list string) : result DataFrame :=
  match List.filter (fun k => Nat.eqb (length (positions k (df_columns df))) 0) keys with
  | missing :: _ => raise (KeyError missing)
  | [] =>
      let js := flat_map (fun k => positions k (df_columns df)) keys in
      ret {| df_columns := map (fun j => nth j (df_columns df) "") js;
             df_rows := map (fun r => (fst r, map (fun j => cell_at j (snd r)) js))
                            (df_rows df) |}
  end.

(** [value.replace(mapping)] *)
Definition replace (mapping : gmap string string) (value : selection) : selection :=
  match value with
  | Series vals => Series (map (replace_cell mapping) vals)
  | SubFrame cols => SubFrame (map (map (replace_cell mapping)) cols)
  end.

(** ** Tables with the nine renamed columns *)

(** A row of the frame once its columns are named as at Main.py 142-152;
    one field per column. *)
Record TableRow : Type := {
  report_id : cell;
  report_date : cell;
  report_type : cell;
  company_name : cell;
  country : cell;
  region : cell;
  indicator : cell;
  statement : cell;
  amount : cell
}.

(** Rows in frame order, each with its index label. *)
Abbreviation Table := (list (nat * TableRow)).

Definition row_of_cells (cells : list cell) : result TableRow :=
  match cells with
  | [c1; c2; c3; c4; c5; c6; c7; c8; c9] =>
      ret {| report_id := c1; report_date := c2; report_type := c3;
             company_name := c4; country := c5; region := c6;
             indicator := c7; statement := c8; amount := c9 |}
  | _ => raise (ValueError "Length mismatch")
  end.

(** [df.columns = [ 'report_id', ..., 'amount' ]]: the nine new labels must
    match the number of columns of the frame. *)
Definition rename_columns (df : DataFrame) : result Table :=
  if Nat.eqb (length (df_columns df)) 9
  then mapM (fun r => let* row := row_of_cells (snd r) in ret (fst r, row))
            (df_rows df)
  else raise (ValueError "Length mismatch: Expected axis has a different number of elements").

(** [series == s] and [series != s] for a string [s], on one value. *)
Definition eq_str (c : cell) (s : string) : bool :=
  match c with
  | CStr s' => String.eqb s' s
  | _ => false
  end.

Definition ne_str (c : cell) (s : string) : bool := negb (eq_str c s).

(** [df[mask]]: the rows whose mask entry is true, labels kept. *)
Fixpoint boolean_index (df : Table) (mask : list bool) : Table :=
  match df, mask with
  | r :: df', b :: mask' =>
      if b then r :: boolean_index df' mask' else boolean_index df' mask'
  | _, _ => []
  end.

(** Main.py 154-159 *)
Definition Filter (df : Table) : Table :=
  let filtered_df :=
    boolean_index df (map (fun r => eq_str (indicator (snd r)) "EBITDA Margin") df) in
  boolean_index filtered_df
    (map (fun r => ne_str (company_name (snd r)) "Immutep Ltd") filtered_df).

(** ** Aggregation and smoothing (Main.py 185 and 194) *)

(** A Series indexed by timestamps.  A value is a float64: [Some q] is the
    finite value [q]; [None] is NaN, or an infinity left by an overflow, which
    [rolling] reads as NaN and for which the plot draws no point. *)
Abbreviation TimeSeries := (list (Z * option Q)).

(** The float64 arithmetic of pandas.
    - [group_mean obs]: the mean that [groupby(...).mean()] returns for a
      group whose observations (the amounts that are not missing, at least
      one) are [obs], in row order: each is converted to float64, their sum is
      accumulated in float64 and divided by their number.
    - [window_mean w vals i]: the mean that [rolling(w, center=True).mean()]
      returns at position [i] of the values [vals] when the window of [i]
      holds enough observations.  pandas keeps one running sum for the whole
      series, adding the values that enter the window and subtracting those
      that leave it, so the rounding at [i] may depend on earlier values.
    - A window of one observation has that observation as its mean: the
      running sum is then the value itself, and [x / 1 = x]. *)
Record float_means : Type := {
  group_mean : list Q -> option Q;
  window_mean : nat -> list (option Q) -> nat -> option Q;
  window_mean_one :
    forall (vals : list (option Q)) (i : nat) (q : Q),
      vals !! i = Some (Some q) -> window_mean 1 vals i = Some q
}.

(** A value of a numeric column; a string cannot be averaged. *)
Definition as_float (c : cell) : result (option Q) :=
  match c with
  | CNum q => ret (Some q)
  | CNull => ret None
  | _ => raise (TypeError "agg function failed [how->mean,dtype->object]")
  end.

(** Adding a value to the group of its key; groups are kept in increasing
    key order, values in row order. *)
Fixpoint group_add (k : Z) (v : option Q) (groups : list (Z * list (option Q)))
  : list (Z * list (option Q)) :=
  match groups with
  | [] => [(k, [v])]
  | (k', vs) :: rest =>
      if (k <? k')%Z then (k, [v]) :: groups
      else if (k =? k')%Z then (k', vs ++ [v]) :: rest
      else (k', vs) :: group_add k v rest
  end.

(** One row of [groupby(key)]: a row whose key is missing belongs to no
    group.  (The date column of a normalized table holds timestamps and NaT
    only.) *)
Definition add_row (groups : list (Z * list (option Q))) (kv : cell * option Q)
  : list (Z * list (option Q)) :=
  match fst kv with
  | CTimestamp k => group_add k (snd kv) groups
  | _ => groups
  end.

Definition groupby (keys : list cell) (vals : list (option Q))
  : list (Z * list (option Q)) :=
  fold_left add_row (combine keys vals) [].

Definition present (vals : list (option Q)) : list Q := omap id vals.

(** [mean()] skips missing values; it is NaN when nothing is left. *)
Definition mean (fm : float_means) (vals : list (option Q)) : option Q :=
  match present vals with
  | [] => None
  | obs => group_mean fm obs
  end.

Definition is_timestamp (c : cell) : bool :=
  match c with
  | CTimestamp _ => true
  | _ => false
  end.

(** [df.groupby('report_date')['amount'].mean()].  The rows without a date
    are dropped before anything is computed: only the amounts of the dated
    rows are averaged, and only they must be numbers. *)
Definition time_trend (fm : float_means) (df : Table) : result TimeSeries :=
  let grouped := List.filter (fun r => is_timestamp (report_date (snd r))) df in
  let* amounts := mapM (fun r => as_float (amount (snd r))) grouped in
  ret (map (fun g => (fst g, mean fm (snd g)))
           (groupby (map (fun r => report_date (snd r)) grouped) amounts)).

(** The values in the window of position [i] of a fixed, centred window of
    size [w] over [n] values: indices [i + 1 + offset - w] (included) to
    [i + 1 + offset] (excluded), [offset = (w - 1) / 2], clipped to
    [0 .. n]. *)
Definition window (w i : nat) (vals : list (option Q)) : list (option Q) :=
  let n := length vals in
  let offset := ((w - 1) / 2)%nat in
  let stop := Nat.min (i + 1 + offset) n in
  let start := Nat.min (i + 1 + offset - w) n in
  firstn (stop - start) (skipn start vals).

(** The mean at position [i] needs [minp] observations in the window of
    [i], and at least one. *)
Definition roll_mean (fm : float_means) (minp w : nat) (vals : list (option Q)) (i : nat)
  : option Q :=
  let obs := present (window w i vals) in
  if Nat.leb minp (length obs) && Nat.ltb 0 (length obs)
  then window_mean fm w vals i
  else None.

(** [series.rolling(window=w, center=True).mean()]; [min_periods] is the
    window size. *)
Definition rolling_mean (fm : float_means) (w : nat) (series : TimeSeries) : TimeSeries :=
  let vals := map snd series in
  combine (map fst series)
          (map (fun i => roll_mean fm w w vals i) (seq 0 (length vals))).

(** ** The analyzer *)

(** The [datatable] object of the response: [columns] is a list of objects
    with a [name], [data] a list of rows. *)
Record column_decl : Type := { name : string }.

Record RawDataset : Type := {
  data : list (list cell);
  columns : list column_decl
}.

(** What [response.json()] returns: a datatable, or any other JSON value,
    one on which [body['datatable']['data']] raises [e] (a [KeyError] for an
    object without the key, a [TypeError] for a value that is not an
    object). *)
Inductive json_body : Type :=
| Datatable (raw : RawDataset)
| Malformed (e : exn).

Record FinancialDataAnalyzer : Type := {
  api_key : string;
  api_url : string;
  username : string;
  password : string;
  raw_data : option json_body;
  processed_data : option Table
}.

(** The module [config] (not among the sources): three strings. *)
Record config_module : Type := {
  config_api_key : string;
  config_username : string;
  config_password : string
}.

Definition necessary_columns : list string :=
  [ "reportid"; "reportdate"; "reporttype"; "longname"; "country";
    "region"; "indicator"; "statement"; "amount" ].

Section Analyzer.

(** What [pd.to_datetime(..., errors='coerce')] makes of one value of a
    column: a timestamp, or nothing when the value is not a date.  The
    column is an argument because pandas may infer one format for it. *)
Variable parse_datetime : list cell -> cell -> option Z.

(** The float64 means of pandas. *)
Variable fm : float_means.

Variable config : config_module.

Definition coerce (col : list cell) (c : cell) : cell :=
  match parse_datetime col c with
  | Some ns => CTimestamp ns
  | None => CNaT
  end.

(** [pd.to_datetime(arg, errors='coerce')]: a Series is converted value
    by value; a frame is only accepted with year, month and day columns,
    which a frame selected by one label never has. *)
Definition to_datetime (arg : selection) : result selection :=
  match arg with
  | Series vals => ret (Series (map (coerce vals) vals))
  | SubFrame _ =>
      raise (ValueError "to assemble mappings requires at least that [year, month, day] be specified")
  end.

(** Main.py 17-32 *)
Definition __init__ (api_key username password : string) : FinancialDataAnalyzer :=
  {| api_key := config_api_key config;
     api_url := "https://data.nasdaq.com/api/v3/datatables/MER/F1";
     username := config_username config;
     password := config_password config;
     raw_data := None;
     processed_data := None |}.

(** Main.py 111-152: from the response to the renamed frame. *)
Definition normalize (raw : RawDataset) : result Table :=
  let data := data raw in
  let columns := map name (columns raw) in
  let* df := DataFrame_new data columns in
  let* reportdate := getitem df "reportdate" in
  let* converted := to_datetime reportdate in
  let* df := setitem df "reportdate" converted in
  let* df := getitem_list df necessary_columns in
  let country_mapping := _get_country_mapping in
  let* country := getitem df "country" in
  let* df := setitem df "country" (replace country_mapping country) in
  rename_columns df.

(** The body of the [try] block, Main.py 109-163. *)
Definition process_body (raw : RawDataset) : result Table :=
  let* df := normalize raw in
  ret (Filter df).

(** Main.py 94-167.  The result is the new state of the analyzer and the
    value returned.  A body that is not a datatable is either falsy (nothing
    to process) or makes the first line of the [try] block raise. *)
Definition process_data (self : FinancialDataAnalyzer)
  : FinancialDataAnalyzer * option Table :=
  match raw_data self with
  | None => (self, None)
  | Some (Malformed _) => (self, None)
  | Some (Datatable raw) =>
      match process_body raw with
      | inr filtered_df =>
          ({| api_key := api_key self; api_url := api_url self;
              username := username self; password := password self;
              raw_data := raw_data self;
              processed_data := Some filtered_df |},
           Some filtered_df)
      | inl _ => (self, None)
      end
  end.

(** Main.py 169-209: the two series handed to the plot, or nothing when
    there is no processed data. *)
Definition visualize_trends (self : FinancialDataAnalyzer) (window_size : nat)
  : result (option (TimeSeries * TimeSeries)) :=
  match processed_data self with
  | None => ret None
  | Some [] => ret None
  | Some df =>
      let* trend := time_trend fm df in
      let smoothed := rolling_mean fm window_size trend in
      ret (Some (trend, smoothed))
  end.

(** Main.py 277-283: the analyzer that [main] builds. *)
Definition main_analyzer : FinancialDataAnalyzer :=
  __init__ (config_api_key config) (config_username config) (config_password config).

End Analyzer.

(** A sample instance of the date parser, for examples: ISO dates
    [YYYY-MM-DD], midnight UTC. *)
Definition digit (a : ascii) : option Z :=
  let n := Z.of_nat (nat_of_ascii a) in
  if ((48 <=? n) && (n <=? 57))%Z then Some (n - 48)%Z else None.

Fixpoint number (acc : Z) (s : list ascii) : option Z :=
  match s with
  | [] => Some acc
  | a :: s' =>
      match digit a with
      | Some d => number (10 * acc + d)%Z s'
      | None => None
      end
  end.

Definition is_leap (y : Z) : bool :=
  ((y mod 4 =? 0) && (negb (y mod 100 =? 0) || (y mod 400 =? 0)))%Z.

Definition days_in_month (y m : Z) : Z :=
  if (m =? 2)%Z then (if is_leap y then 29 else 28)%Z
  else if ((m =? 4) || (m =? 6) || (m =? 9) || (m =? 11))%Z then 30%Z
  else 31%Z.

(** Days since 1970-01-01 of a civil date. *)
Definition days_from_civil (y m d : Z) : Z :=
  let y' := (if m <=? 2 then y - 1 else y)%Z in
  let era := (y' / 400)%Z in
  let yoe := (y' - era * 400)%Z in
  let mp := ((m + 9) mod 12)%Z in
  let doy := ((153 * mp + 2) / 5 + d - 1)%Z in
  let doe := (yoe * 365 + yoe / 4 - yoe / 100 + doy)%Z in
  (era * 146097 + doe - 719468)%Z.

Definition iso_date (c : cell) : option Z :=
  match c with
  | CStr s =>
      match list_ascii_of_string s with
      | [y1; y2; y3; y4; "-"%char; m1; m2; "-"%char; d1; d2] =>
          match number 0 [y1; y2; y3; y4], number 0 [m1; m2], number 0 [d1; d2] with
          | Some y, Some m, Some d =>
              if ((1 <=? m) && (m <=? 12) && (1 <=? d) && (d <=? days_in_month y m))%Z
              then Some (days_from_civil y m d * 86400000000000)%Z
              else None
          | _, _, _ => None
          end
      | _ => None
      end
  | CTimestamp ns => Some ns
  | _ => None
  end.

Definition iso_parser (col : list cell) (c : cell) : option Z := iso_date c.

(** A sample instance of the means, for examples: IEEE 754 binary64
    (53 bits of precision, round to nearest even) with the standard library's
    [SFadd], [SFsub] and [SFdiv]. *)

(** The float64 nearest to a number. *)
Definition float64_of_number (q : Q) : spec_float :=
  match Qnum q with
  | Z0 => S754_zero false
  | Zpos n => SFdiv 53 1024 (S754_finite false n 0) (S754_finite false (Qden q) 0)
  | Zneg n => SFdiv 53 1024 (S754_finite true n 0) (S754_finite false (Qden q) 0)
  end.

(** The value of a finite float64. *)
Definition number_of_float64 (x : spec_float) : option Q :=
  match x with
  | S754_zero _ => Some 0%Q
  | S754_finite s m e =>
      Some (Qred (inject_Z (if s then Zneg m else Zpos m) * Qpower 2 e))
  | _ => None
  end.

(** One step of the compensated sum: the running sum and the rounding
    error carried over. *)
Definition kahan_add (acc : spec_float * spec_float) (val : spec_float)
  : spec_float * spec_float :=
  let '(sumx, compensation) := acc in
  let y := SFsub 53 1024 val compensation in
  let t := SFadd 53 1024 sumx y in
  let c := SFsub 53 1024 (SFsub 53 1024 t sumx) y in
  (t, match c with S754_nan => S754_zero false | _ => c end).

Definition float64_mean (obs : list Q) : option Q :=
  let sumx := fst (fold_left kahan_add (map float64_of_number obs)
                             (S754_zero false, S754_zero false)) in
  number_of_float64
    (SFdiv 53 1024 sumx (float64_of_number (inject_Z (Z.of_nat (length obs))))).

(** In this instance every window is summed afresh; one observation is its
    own mean. *)
Definition float64_window_mean (w : nat) (vals : list (option Q)) (i : nat) : option Q :=
  match present (window w i vals) with
  | [x] => Some x
  | obs => float64_mean obs
  end.

Definition binary64 : float_means.
Proof.
  refine {| group_mean := float64_mean; window_mean := float64_window_mean |}.
  intros vals i q Hq. unfold float64_window_mean, window.
  pose proof (lookup_lt_Some _ _ _ Hq) as Hi.
  change ((1 - 1) / 2)%nat with 0%nat.
  replace (Nat.min (i + 1 + 0 - 1) (length vals)) with i by lia.
  replace (Nat.min (i + 1 + 0) (length vals) - i)%nat with 1%nat by lia.
  rewrite (drop_S _ _ _ Hq). reflexivity.
Defined.

(** ** The outside world: keyboard, server, screen *)

(** A value of the [params] dict of a request. *)
Inductive param : Type :=
| PStr (s : string)
| PInt (n : Z).

Record request : Type := {
  req_url : string;
  req_params : list (string * param)
}.

(** What [requests.get] returns when it does not raise: the status, and
    what [response.json()] gives: the parsed body, or nothing when the body is
    not JSON and [json()] raises a [JSONDecodeError] (of [requests], a
    [RequestException]). *)
Record Response : Type := {
  status_code : Z;
  json : option json_body
}.

Inductive prompt : Type :=
| Input (text : string)       (* [input(text)]: the line is echoed *)
| PwInput (text : string).    (* [pwinput.pwinput(text)]: the line is masked *)

(** - [typed n] is the n-th line that the user types;
    - [prompts] are the prompts answered so far, the latest last;
    - [server sent rq] is the outcome of sending [rq] after the requests
      [sent]: a response, or nothing when [requests.get] raises a
      [RequestException];
    - [sent] are the requests sent so far, and [charts] the pairs of series
      (per-date mean, moving average) shown so far, the latest last. *)
Record World : Type := {
  typed : nat -> string;
  prompts : list prompt;
  server : list request -> request -> option Response;
  sent : list request;
  charts : list (TimeSeries * TimeSeries)
}.

Definition read_line (p : prompt) (w : World) : string * World :=
  (typed w (length (prompts w)),
   {| typed := typed w; prompts := prompts w ++ [p]; server := server w;
      sent := sent w; charts := charts w |}).

(** [input(text)] *)
Definition input (text : string) (w : World) : string * World :=
  read_line (Input text) w.

(** [pwinput.pwinput(text)] *)
Definition pwinput (text : string) (w : World) : string * World :=
  read_line (PwInput text) w.

(** [requests.get(url, params=params)] *)
Definition requests_get (url : string) (params : list (string * param)) (w : World)
  : option Response * World :=
  let rq := {| req_url := url; req_params := params |} in
  (server w (sent w) rq,
   {| typed := typed w; prompts := prompts w; server := server w;
      sent := sent w ++ [rq]; charts := charts w |}).

(** [response.raise_for_status()] raises an [HTTPError], which is a
    [RequestException], for the client and server error codes. *)
Definition raise_for_status (response : Response) : bool :=
  ((400 <=? status_code response) && (status_code response <? 600))%Z.

(** [plt.show()] with the two lines of the figure. *)
Definition show (plot : TimeSeries * TimeSeries) (w : World) : World :=
  {| typed := typed w; prompts := prompts w; server := server w;
     sent := sent w; charts := charts w ++ [plot] |}.

Definition set_raw_data (self : FinancialDataAnalyzer) (body : json_body)
  : FinancialDataAnalyzer :=
  {| api_key := api_key self; api_url := api_url self;
     username := username self; password := password self;
     raw_data := Some body;
     processed_data := processed_data self |}.

(** Main.py 34-64 *)
Definition authenticate (self : FinancialDataAnalyzer) (w : World) : bool * World :=
  let '(entered_username, w) := input "Enter Username: " w in
  if negb (String.eqb entered_username (username self)) then (false, w)
  else
    let '(entered_password, w) := pwinput "Enter Your Password: " w in
    if negb (String.eqb entered_password (password self)) then (false, w)
    else (true, w).

(** Main.py 66-92.  The value returned or the exception raised, the
    analyzer and the world after the call.  The [except] clause catches what
    [requests.get], [raise_for_status] and [json] raise; the body is stored
    before the number of its records is printed, and an exception raised
    there is not caught. *)
Definition fetch_data (self : FinancialDataAnalyzer) (records_per_page : Z) (w : World)
  : result bool * FinancialDataAnalyzer * World :=
  let parameters :=
    [ ("api_key", PStr (api_key self));
      ("qopts.per_page", PInt records_per_page) ] in
  let '(got, w) := requests_get (api_url self) parameters w in
  match got with
  | None => (ret false, self, w)
  | Some response =>
      if raise_for_status response then (ret false, self, w)
      else
        match json response with
        | None => (ret false, self, w)
        | Some body =>
            let self := set_raw_data self body in
            match body with
            | Datatable _ => (ret true, self, w)
            | Malformed e => (raise e, self, w)
            end
        end
  end.

(** Main.py 244-274.  [fetch_data] and [visualize_trends] are called with
    their default arguments.  The first component is the exception that
    escapes from [fetch_data] or from [visualize_trends], if any. *)
Definition run (parse_datetime : list cell -> cell -> option Z) (fm : float_means)
           (self : FinancialDataAnalyzer) (w : World)
  : option exn * FinancialDataAnalyzer * World :=
  let '(authenticated, w) := authenticate self w in
  if negb authenticated then (None, self, w)
  else
    let '(fetched, self, w) := fetch_data self 10000 w in
    match fetched with
    | inl e => (Some e, self, w)
    | inr false => (None, self, w)
    | inr true =>
        let '(self, processed) := process_data parse_datetime self in
        match processed with
        | None => (None, self, w)
        | Some _ =>
            match visualize_trends fm self 3 with
            | inl e => (Some e, self, w)
            | inr None => (None, self, w)
            | inr (Some plot) => (None, self, show plot w)
            end
        end
    end.

(** Main.py 277-286 *)
Definition main (parse_datetime : list cell -> cell -> option Z) (fm : float_means)
           (config : config_module) (w : World)
  : option exn * FinancialDataAnalyzer * World :=
  run parse_datetime fm (main_analyzer config) w.

(** * Vocabulary of the statements *)

#[global] Instance Q_eq_dec : EqDecision Q.
Proof. solve_decision. Defined.

#[global] Instance cell_eq_dec : EqDecision cell.
Proof. solve_decision. Defined.

(** Looking a key up in the entries of a dict display, first match. *)
Fixpoint lookup_items (items : list (string * string)) (k : string) : option string :=
  match items with
  | [] => None
  | (k', v) :: items' => if String.eqb k' k then Some v else lookup_items items' k
  end.

(** The rows the filter is meant to keep. *)
Definition kept (r : nat * TableRow) : Prop :=
  indicator (snd r) = CStr "EBITDA Margin" /\
  company_name (snd r) <> CStr "Immutep Ltd".

#[global] Instance kept_dec (r : nat * TableRow) : Decision (kept r).
Proof. unfold kept. apply _. Defined.






Definition number_of (c : cell) : option Q :=
  match c with
  | CNum q => Some q
  | _ => None
  end.


(** A numeric column: numbers and missing values. *)
Definition numeric (c : cell) : Prop := c = CNull \/ exists q, c = CNum q.


Ltac pair_eq :=
  repeat match goal with
         | H : (_, _) = (_, _) |- _ => inversion H; clear H; subst
         end.

(** The declared column names, the position of a name among them, and the
    value of a raw row in the column of that name (missing when the row is
    too short). *)
Definition declared_columns (raw : RawDataset) : list string :=
  map name (columns raw).

Fixpoint column_index (key : string) (cols : list string) : nat :=
  match cols with
  | [] => 0
  | c :: cols' => if String.eqb c key then 0 else S (column_index key cols')
  end.

Definition raw_cell (raw : RawDataset) (key : string) (row : list cell) : cell :=
  cell_at (column_index key (declared_columns raw)) row.

(** Each necessary column is declared exactly once. *)
Definition declared_once (raw : RawDataset) : Prop :=
  Forall (fun key => count_occ string_dec (declared_columns raw) key = 1%nat)
         necessary_columns.

(** Every row has one value per declared column. *)
Definition aligned (raw : RawDataset) : Prop :=
  Forall (fun row => length row = length (declared_columns raw)) (data raw).

(** The frame constructor accepts the rows. *)
Definition shape_ok (raw : RawDataset) : Prop :=
  data raw = [] \/ width (data raw) = length (declared_columns raw).

(** The normalized row that a raw row should give. *)
Definition normal_row (parse_datetime : list cell -> cell -> option Z)
           (raw : RawDataset) (row : list cell) : TableRow :=
  {| report_id := raw_cell raw "reportid" row;
     report_date := coerce parse_datetime
                      (map (raw_cell raw "reportdate") (data raw))
                      (raw_cell raw "reportdate" row);
     report_type := raw_cell raw "reporttype" row;
     company_name := raw_cell raw "longname" row;
     country := replace_cell _get_country_mapping (raw_cell raw "country" row);
     region := raw_cell raw "region" row;
     indicator := raw_cell raw "indicator" row;
     statement := raw_cell raw "statement" row;
     amount := raw_cell raw "amount" row |}.

(** ** Sample data *)

Definition sample_columns : list column_decl :=
  map (fun s => {| name := s |}) necessary_columns.

Definition sample_dataset : RawDataset :=
  {| data :=
       [ [CStr "R1"; CStr "2020-01-15"; CStr "10-K"; CStr "Acme"; CStr "USA";
          CStr "NA"; CStr "EBITDA Margin"; CStr "IS"; CNum (25 # 2)];
         [CStr "R2"; CStr "not-a-date"; CStr "10-K"; CStr "Immutep Ltd"; CStr "AUS";
          CStr "APAC"; CStr "EBITDA Margin"; CStr "IS"; CNum (1 # 2)];
         [CStr "R3"; CStr "2020-01-15"; CStr "10-Q"; CStr "Zeta"; CStr "ZZZ";
          CStr "NA"; CStr "Revenue"; CStr "IS"; CNum 3] ];
     columns := sample_columns |}.

(** The column "amount" is declared twice; the row has ten values. *)
Definition dataset_duplicate_column : RawDataset :=
  {| data :=
       [ [CStr "R1"; CStr "2020-01-15"; CStr "10-K"; CStr "Acme"; CStr "USA";
          CStr "NA"; CStr "EBITDA Margin"; CStr "IS"; CNum (25 # 2); CNum (25 # 2)] ];
     columns := sample_columns ++ [ {| name := "amount" |} ] |}.

(** A row whose country is the empty string, and a row whose country is
    missing. *)
Definition dataset_blank_country : RawDataset :=
  {| data :=
       [ [CStr "R1"; CStr "2020-01-15"; CStr "10-K"; CStr "Acme"; CStr "";
          CStr "NA"; CStr "EBITDA Margin"; CStr "IS"; CNum (25 # 2)];
         [CStr "R2"; CStr "2020-01-15"; CStr "10-K"; CStr "Beta"; CNull;
          CStr "NA"; CStr "EBITDA Margin"; CStr "IS"; CNum (7 # 2)] ];
     columns := sample_columns |}.

(** Nine declared columns, a row of two values. *)
Definition dataset_short_row : RawDataset :=
  {| data := [ [CStr "R1"; CStr "2020-01-15"] ];
     columns := sample_columns |}.

(** No column "amount". *)
Definition dataset_without_amount : RawDataset :=
  {| data :=
       [ [CStr "R1"; CStr "2020-01-15"; CStr "10-K"; CStr "Acme"; CStr "USA";
          CStr "NA"; CStr "EBITDA Margin"; CStr "IS"] ];
     columns := firstn 8 sample_columns |}.

Definition sample_row (id : string) (date : cell) (company : string) (value : cell)
  : TableRow :=
  {| report_id := CStr id; report_date := date; report_type := CStr "10-K";
     company_name := CStr company; country := CStr "Canada"; region := CStr "NA";
     indicator := CStr "EBITDA Margin"; statement := CStr "IS"; amount := value |}.

Definition sample_table : Table :=
  [ (0%nat, sample_row "R1" (CTimestamp 20) "Acme" (CNum (25 # 2)));
    (2%nat, sample_row "R3" (CTimestamp 10) "Beta" (CNum 3));
    (3%nat, sample_row "R4" (CTimestamp 20) "Gamma" CNull);
    (5%nat, sample_row "R6" CNaT "Delta" (CNum 7));
    (6%nat, sample_row "R7" (CTimestamp 20) "Eps" (CNum (7 # 2))) ].


Definition sample_analyzer (raw : RawDataset) : FinancialDataAnalyzer :=
  {| api_key := "key"; api_url := "https://data.nasdaq.com/api/v3/datatables/MER/F1";
     username := "user"; password := "secret";
     raw_data := Some (Datatable raw);
     processed_data := Some sample_table |}.

(** ** Vocabulary for the further properties *)

(** A raw row, with its position, that the filter will keep: decided on the
    raw values of the columns "indicator" and "longname". *)
Definition selected (raw : RawDataset) (ir : nat * list cell) : Prop :=
  raw_cell raw "indicator" (snd ir) = CStr "EBITDA Margin" /\
  raw_cell raw "longname" (snd ir) <> CStr "Immutep Ltd".

#[global] Instance selected_dec (raw : RawDataset) (ir : nat * list cell) :
  Decision (selected raw ir).
Proof. unfold selected. apply _. Defined.

(** Two raw rows, of two datasets, with the same values in the nine
    necessary columns. *)
Definition agree (raw raw' : RawDataset) (row row' : list cell) : Prop :=
  Forall (fun key => raw_cell raw key row = raw_cell raw' key row') necessary_columns.

(** The sample dataset with its columns in another order and two more
    columns. *)
Definition sample_dataset_wide : RawDataset :=
  {| data :=
       [ [CNum (25 # 2); CStr "x"; CStr "IS"; CStr "EBITDA Margin"; CStr "NA"; CStr "USA";
          CStr "Acme"; CStr "10-K"; CStr "2020-01-15"; CNull; CStr "R1"];
         [CNum (1 # 2); CStr "y"; CStr "IS"; CStr "EBITDA Margin"; CStr "APAC"; CStr "AUS";
          CStr "Immutep Ltd"; CStr "10-K"; CStr "not-a-date"; CNum 4; CStr "R2"];
         [CNum 3; CStr "z"; CStr "IS"; CStr "Revenue"; CStr "NA"; CStr "ZZZ";
          CStr "Zeta"; CStr "10-Q"; CStr "2020-01-15"; CNull; CStr "R3"] ];
     columns :=
       map (fun s => {| name := s |})
           [ "amount"; "units"; "statement"; "indicator"; "region"; "country";
             "longname"; "reporttype"; "reportdate"; "reportingcurrency"; "reportid" ] |}.

(** A row with a date. *)
Definition dated (r : nat * TableRow) : Prop :=
  Is_true (is_timestamp (report_date (snd r))).


(** The position, inside a window of size [w], of the value that the window
    is centred on. *)
Definition centre (w : nat) : nat := (w - 1 - (w - 1) / 2)%nat.


(** The next two lines that the user types are the user name and the
    password of the analyzer. *)
Definition login_ok (self : FinancialDataAnalyzer) (w : World) : Prop :=
  typed w (length (prompts w)) = username self /\
  typed w (S (length (prompts w))) = password self.

#[global] Instance login_ok_dec (self : FinancialDataAnalyzer) (w : World) :
  Decision (login_ok self w).
Proof. unfold login_ok. apply _. Defined.

(** The request that [run] sends for an analyzer. *)
Definition request_of (self : FinancialDataAnalyzer) (records_per_page : Z) : request :=
  {| req_url := api_url self;
     req_params := [ ("api_key", PStr (api_key self));
                     ("qopts.per_page", PInt records_per_page) ] |}.

(** The status is not a client or server error code. *)
Definition status_ok (response : Response) : Prop :=
  ~ (400 <= status_code response < 600)%Z.

Definition sample_config : config_module :=
  {| config_api_key := "key-123";
     config_username := "alice";
     config_password := "s3cret" |}.

(** A world in which the user types [user] and then [pass], and in which
    every request has the outcome [outcome]. *)
Definition sample_world (user pass : string) (outcome : option Response) : World :=
  {| typed := fun n => match n with O => user | S _ => pass end;
     prompts := [];
     server := fun _ _ => outcome;
     sent := [];
     charts := [] |}.

(** A response with two rows to plot. *)
Definition sample_body : RawDataset :=
  {| data :=
       [ [CStr "R1"; CStr "2020-01-15"; CStr "10-K"; CStr "Acme"; CStr "USA";
          CStr "NA"; CStr "EBITDA Margin"; CStr "IS"; CNum (25 # 2)];
         [CStr "R2"; CStr "2020-04-15"; CStr "10-K"; CStr "Beta"; CStr "CAN";
          CStr "NA"; CStr "EBITDA Margin"; CStr "IS"; CNum (7 # 2)] ];
     columns := sample_columns |}.

Definition sample_response : Response :=
  {| status_code := 200; json := Some (Datatable sample_body) |}.

(** The world once the two prompts of the login have been answered. *)
Definition after_login (w : World) : World :=
  snd (pwinput "Enter Your Password: " (snd (input "Enter Username: " w))).

(** The analyzer once [process_data] has stored a table. *)
Definition set_processed_data (self : FinancialDataAnalyzer) (df : Table)
  : FinancialDataAnalyzer :=
  {| api_key := api_key self; api_url := api_url self;
     username := username self; password := password self;
     raw_data := raw_data self;
     processed_data := Some df |}.

(** A response none of whose rows has the indicator. *)
Definition sample_body_revenue : RawDataset :=
  {| data :=
       [ [CStr "R3"; CStr "2020-01-15"; CStr "10-Q"; CStr "Zeta"; CStr "ZZZ";
          CStr "NA"; CStr "Revenue"; CStr "IS"; CNum 3] ];
     columns := sample_columns |}.

Definition sample_response_revenue : Response :=
  {| status_code := 200; json := Some (Datatable sample_body_revenue) |}.

(** A response with a dated row and a row that has no date and a string
    as its amount. *)
Definition sample_response_undated : Response :=
  {| status_code := 200;
     json :=
       Some (Datatable
               {| data :=
                    [ [CStr "R1"; CStr "2020-01-15"; CStr "10-K"; CStr "Acme"; CStr "USA";
                       CStr "NA"; CStr "EBITDA Margin"; CStr "IS"; CNum (25 # 2)];
                      [CStr "R2"; CStr "not-a-date"; CStr "10-K"; CStr "Beta"; CStr "CAN";
                       CStr "NA"; CStr "EBITDA Margin"; CStr "IS"; CStr "n/a"] ];
                  columns := sample_columns |}) |}.

(** A response whose body is a JSON object without the key "datatable". *)
Definition sample_response_malformed : Response :=
  {| status_code := 200; json := Some (Malformed (KeyError "datatable")) |}.

(** A response whose body lacks the column "amount". *)
Definition sample_response_without_amount : Response :=
  {| status_code := 200; json := Some (Datatable dataset_without_amount) |}.

(** * Properties *)

(** ** Decidable equality of values *)

Lemma eq_str_true (c : cell) (s : string) : eq_str c s = true <-> c = CStr s.
Proof.
  destruct c; simpl; try (split; [discriminate | intros [=]]).
  rewrite String.eqb_eq. split; [congruence | intros [=]; assumption].
Qed.

Lemma ne_str_true (c : cell) (s : string) : ne_str c s = true <-> c <> CStr s.
Proof.
  unfold ne_str. rewrite negb_true_iff, <- not_true_iff_false, eq_str_true.
  reflexivity.
Qed.

(** ** The constructor *)

(** C10: whatever three strings are passed to the constructor, the
    [api_key], [username] and [password] of the new analyzer are the ones of
    the [config] module; two calls with different arguments build the same
    analyzer, which is also the one that [main] builds. *)
Theorem init_ignores_arguments :
  forall (config : config_module) (k u p : string),
    api_key (__init__ config k u p) = config_api_key config /\
    username (__init__ config k u p) = config_username config /\
    password (__init__ config k u p) = config_password config /\
    (forall k' u' p' : string, __init__ config k' u' p' = __init__ config k u p) /\
    main_analyzer config = __init__ config k u p.
Proof.
  intros config k u p. repeat split.
Qed.

(** ** The country dictionary *)

Lemma dict_fold_absent (items : list (string * string)) (m : gmap string string) (k : string) :
  ~ In k (map fst items) ->
  fold_left (fun m kv => <[ fst kv := snd kv ]> m) items m !! k = m !! k.
Proof.
  revert m. induction items as [| [k' v] items IH]; intros m Hk; simpl in *.
  - reflexivity.
  - rewrite IH by tauto. apply lookup_insert_ne. tauto.
Qed.

Lemma dict_fold_lookup (items : list (string * string)) (m : gmap string string) (k : string) :
  List.NoDup (map fst items) ->
  fold_left (fun m kv => <[ fst kv := snd kv ]> m) items m !! k =
  match lookup_items items k with
  | Some v => Some v
  | None => m !! k
  end.
Proof.
  revert m. induction items as [| [k' v] items IH]; intros m Hnd; simpl.
  - reflexivity.
  - inversion Hnd as [| ? ? Hnotin Hnd']; subst.
    destruct (String.eqb k' k) eqn:E.
    + apply String.eqb_eq in E. subst k'.
      rewrite dict_fold_absent by assumption. apply lookup_insert_eq.
    + apply String.eqb_neq in E. rewrite IH by assumption.
      destruct (lookup_items items k); [reflexivity |].
      apply lookup_insert_ne. assumption.
Qed.

Lemma country_keys_NoDup : List.NoDup (map fst country_items).
Proof.
  apply (NoDup_count_occ' string_dec).
  intros k Hk. simpl in Hk.
  repeat (destruct Hk as [<- | Hk]; [vm_compute; reflexivity |]).
  contradiction.
Qed.

Lemma country_mapping_lookup (code : string) :
  _get_country_mapping !! code = lookup_items country_items code.
Proof.
  unfold _get_country_mapping, dict_of_items.
  rewrite dict_fold_lookup by apply country_keys_NoDup.
  destruct (lookup_items country_items code); [reflexivity | apply lookup_empty].
Qed.

Lemma lookup_items_In (items : list (string * string)) (k v : string) :
  lookup_items items k = Some v -> In (k, v) items.
Proof.
  induction items as [| [k' v'] items IH]; simpl; [discriminate |].
  destruct (String.eqb k' k) eqn:E.
  - apply String.eqb_eq in E. intros [= <-]. left. congruence.
  - intros H. right. auto.
Qed.

(** ** The filter *)

Lemma boolean_index_mask (p : nat * TableRow -> bool) (df : Table) :
  boolean_index df (map p df) = List.filter p df.
Proof.
  induction df as [| r df IH]; simpl; [reflexivity |].
  rewrite IH. reflexivity.
Qed.

Lemma List_filter_decide (P : nat * TableRow -> Prop) `{!forall r, Decision (P r)}
      (p : nat * TableRow -> bool) (df : Table) :
  (forall r, p r = true <-> P r) ->
  List.filter p df = filter P df.
Proof.
  intros Hp. induction df as [| r df IH]; [reflexivity |].
  rewrite filter_cons, <- IH. cbn [List.filter].
  destruct (p r) eqn:E; destruct (decide (P r)) as [HP | HP]; try reflexivity.
  - apply Hp in E. contradiction.
  - apply Hp in HP. congruence.
Qed.

Lemma Filter_filter (df : Table) : Filter df = filter kept df.
Proof.
  unfold Filter. rewrite !boolean_index_mask.
  rewrite (List_filter_decide (fun r => indicator (snd r) = CStr "EBITDA Margin")
             (fun r => eq_str (indicator (snd r)) "EBITDA Margin"))
    by (intros r; apply eq_str_true).
  rewrite (List_filter_decide (fun r => company_name (snd r) <> CStr "Immutep Ltd")
             (fun r => ne_str (company_name (snd r)) "Immutep Ltd"))
    by (intros r; apply ne_str_true).
  rewrite list_filter_filter. apply list_filter_iff.
  intros r. unfold kept. tauto.
Qed.

(** C1: the filter keeps exactly the rows whose indicator is the string
    "EBITDA Margin" and whose company name is not the string "Immutep Ltd",
    in the order of the input: the result is the input with the other rows
    deleted, a row (with its label) is in the result exactly when it is such
    a row of the input, and the result is a subsequence of the input. *)
Theorem Filter_keeps_exactly :
  forall df : Table,
    Filter df = filter kept df /\
    (forall r, In r (Filter df) <->
               In r df /\
               indicator (snd r) = CStr "EBITDA Margin" /\
               company_name (snd r) <> CStr "Immutep Ltd") /\
    sublist (Filter df) df.
Proof.
  intros df. rewrite Filter_filter. split; [reflexivity | split].
  - intros r. rewrite <- !list_elem_of_In, list_elem_of_filter.
    unfold kept. tauto.
  - apply sublist_filter.
Qed.

(** C9: every row of the filter's result is a row of its input, and
    filtering the result again gives the same result. *)
Theorem Filter_subset_idempotent :
  forall df : Table,
    (forall r, In r (Filter df) -> In r df) /\
    sublist (Filter df) df /\
    Filter (Filter df) = Filter df.
Proof.
  intros df. rewrite !Filter_filter. split; [| split].
  - intros r. rewrite <- !list_elem_of_In, list_elem_of_filter. tauto.
  - apply sublist_filter.
  - rewrite list_filter_filter. apply list_filter_iff. tauto.
Qed.

(** ** Smoothing *)

Lemma combine_lookup {A B} (l1 : list A) (l2 : list B) (i : nat) (a : A) (b : B) :
  l1 !! i = Some a -> l2 !! i = Some b -> combine l1 l2 !! i = Some (a, b).
Proof.
  revert l2 i. induction l1 as [| a' l1 IH]; intros [| b' l2] [| i]; simpl;
    try discriminate.
  - intros [= ->] [= ->]. reflexivity.
  - apply IH.
Qed.

Lemma map_lookup {A B} (f : A -> B) (l : list A) (i : nat) (a : A) :
  l !! i = Some a -> map f l !! i = Some (f a).
Proof.
  revert i. induction l as [| a' l IH]; intros [| i]; simpl; try discriminate.
  - intros [= ->]. reflexivity.
  - apply IH.
Qed.

Lemma seq_lookup (n i : nat) : (i < n)%nat -> seq 0 n !! i = Some i.
Proof. intros H. apply (lookup_seq_lt 0 n i H). Qed.

Lemma rolling_mean_lookup (fm : float_means) (w : nat) (s : TimeSeries) (i : nat)
      (d : Z) (v : option Q) :
  s !! i = Some (d, v) ->
  rolling_mean fm w s !! i = Some (d, roll_mean fm w w (map snd s) i).
Proof.
  intros H. unfold rolling_mean. apply combine_lookup.
  - apply (map_lookup fst) in H. exact H.
  - apply (map_lookup (fun i => roll_mean fm w w (map snd s) i)).
    apply seq_lookup. rewrite length_map. eapply lookup_lt_Some. exact H.
Qed.

Lemma map_fst_combine {A B} (l1 : list A) (l2 : list B) :
  length l1 = length l2 -> map fst (combine l1 l2) = l1.
Proof.
  revert l2. induction l1 as [| a l1 IH]; intros [| b l2] H; simpl in *;
    try discriminate; [reflexivity |].
  f_equal. apply IH. lia.
Qed.


Lemma present_length (win : list (option Q)) :
  (length (present win) <= length win)%nat.
Proof.
  induction win as [| [q |] win IH]; simpl; lia.
Qed.

Lemma roll_mean_few (fm : float_means) (minp w : nat) (vals : list (option Q)) (i : nat) :
  (length (present (window w i vals)) < minp)%nat -> roll_mean fm minp w vals i = None.
Proof.
  intros H. unfold roll_mean.
  destruct (Nat.leb minp (length (present (window w i vals)))) eqn:E; [| reflexivity].
  apply Nat.leb_le in E. lia.
Qed.

Lemma roll_mean_short (fm : float_means) (minp w : nat) (vals : list (option Q)) (i : nat) :
  (length (window w i vals) < minp)%nat -> roll_mean fm minp w vals i = None.
Proof.
  intros H. apply roll_mean_few. pose proof (present_length (window w i vals)). lia.
Qed.

Lemma window_length (w i : nat) (vals : list (option Q)) :
  (length (window w i vals) <=
   Nat.min (i + 1 + (w - 1) / 2) (length vals) -
   Nat.min (i + 1 + (w - 1) / 2 - w) (length vals))%nat.
Proof.
  unfold window. apply firstn_le_length.
Qed.




(** ** Aggregation *)








Lemma combine_map {A B C} (f : A -> B) (g : A -> C) (l : list A) :
  combine (map f l) (map g l) = map (fun a => (f a, g a)) l.
Proof. induction l as [| a l IH]; simpl; [reflexivity | rewrite IH; reflexivity]. Qed.

Lemma mapM_as_float (df : Table) :
  Forall (fun r => numeric (amount (snd r))) df ->
  mapM (fun r => as_float (amount (snd r))) df =
  inr (map (fun r => number_of (amount (snd r))) df).
Proof.
  induction 1 as [| r df Hr _ IH]; simpl; [reflexivity |].
  rewrite IH. destruct Hr as [-> | [q ->]]; reflexivity.
Qed.



Lemma fold_add_row_filter (df : Table) (acc : list (Z * list (option Q))) :
  fold_left add_row
    (map (fun r => (report_date (snd r), number_of (amount (snd r))))
         (List.filter (fun r => is_timestamp (report_date (snd r))) df)) acc =
  fold_left add_row
    (map (fun r => (report_date (snd r), number_of (amount (snd r)))) df) acc.
Proof.
  revert acc. induction df as [| r df IH]; intros acc; [reflexivity |].
  cbn [List.filter]. destruct (is_timestamp (report_date (snd r))) eqn:E.
  - cbn [map fold_left]. apply IH.
  - cbn [map fold_left]. rewrite IH. f_equal.
    unfold add_row. cbn [fst snd].
    destruct (report_date (snd r)); try reflexivity. discriminate.
Qed.

Lemma time_trend_groups_dated (fm : float_means) (df : Table) :
  Forall (fun r => dated r -> numeric (amount (snd r))) df ->
  time_trend fm df =
  inr (map (fun g => (fst g, mean fm (snd g)))
           (fold_left add_row
              (map (fun r => (report_date (snd r), number_of (amount (snd r)))) df) [])).
Proof.
  intros Hnum. unfold time_trend. rewrite mapM_as_float.
  - unfold bind, ret, groupby. rewrite combine_map, fold_add_row_filter. reflexivity.
  - rewrite List.Forall_forall in *. intros r Hr. apply filter_In in Hr.
    destruct Hr as [Hr Hd]. apply (Hnum r Hr). unfold dated. rewrite Hd. exact I.
Qed.



(** What [visualize_trends] plots with the default window: the aggregated
    series and its smoothing. *)
Lemma visualize_trends_series (fm : float_means) (self : FinancialDataAnalyzer)
      (df : Table) (ts : TimeSeries) :
  processed_data self = Some df ->
  df <> [] ->
  time_trend fm df = inr ts ->
  visualize_trends fm self 3 = inr (Some (ts, rolling_mean fm 3 ts)).
Proof.
  intros Hdf Hne Hts. unfold visualize_trends. rewrite Hdf.
  destruct df as [| r df]; [contradiction |]. rewrite Hts. reflexivity.
Qed.









(** On the sample table, in binary64: the rows dated 20 have amounts 12.5,
    none and 3.5 and average to 8; the row without a date is in no group. *)
Example time_trend_sample :
  time_trend binary64 sample_table = inr [ (10%Z, Some 3%Q); (20%Z, Some 8%Q) ].
Proof. vm_compute. reflexivity. Qed.

(** ** Extraction and normalization *)

Lemma positions_from_length (i : nat) (key : string) (cols : list string) :
  length (positions_from i key cols) = count_occ string_dec cols key.
Proof.
  revert i. induction cols as [| c cols IH]; intros i; simpl; [reflexivity |].
  destruct (String.eqb_spec c key) as [-> | Hne].
  - destruct (string_dec key key); [| contradiction]. simpl. rewrite IH. reflexivity.
  - destruct (string_dec c key); [contradiction |]. apply IH.
Qed.

Lemma positions_from_head (i : nat) (key : string) (cols : list string) (j : nat) (js : list nat) :
  positions_from i key cols = j :: js -> j = (i + column_index key cols)%nat.
Proof.
  revert i. induction cols as [| c cols IH]; intros i; simpl; [discriminate |].
  destruct (String.eqb c key).
  - intros [= <- _]. lia.
  - intros H. apply IH in H. lia.
Qed.

Lemma column_index_In (key : string) (cols : list string) :
  In key cols ->
  nth (column_index key cols) cols "" = key /\
  (column_index key cols < length cols)%nat.
Proof.
  induction cols as [| c cols IH]; simpl; [intros [] |].
  destruct (String.eqb_spec c key) as [-> | Hne].
  - intros _. split; [reflexivity | lia].
  - intros [-> | Hin]; [contradiction |]. destruct (IH Hin). split; [assumption | lia].
Qed.

Lemma positions_nil (key : string) (cols : list string) :
  positions key cols = [] <-> ~ In key cols.
Proof.
  unfold positions.
  rewrite (count_occ_not_In string_dec), <- (positions_from_length 0).
  destruct (positions_from 0 key cols); simpl; split; congruence.
Qed.

Lemma positions_once (key : string) (cols : list string) :
  count_occ string_dec cols key = 1%nat ->
  positions key cols = [column_index key cols] /\
  nth (column_index key cols) cols "" = key /\
  (column_index key cols < length cols)%nat.
Proof.
  intros H. split.
  - unfold positions. pose proof (positions_from_length 0 key cols) as Hlen.
    rewrite H in Hlen.
    destruct (positions_from 0 key cols) as [| j [| j' js]] eqn:E; try discriminate.
    apply positions_from_head in E. subst j. reflexivity.
  - apply column_index_In. apply (count_occ_In string_dec). lia.
Qed.

Lemma cell_at_lookup (j : nat) (row : list cell) :
  cell_at j row = default CNull (row !! j).
Proof. apply nth_lookup. Qed.

Lemma cell_at_insert_eq (j : nat) (v : cell) (row : list cell) :
  (j < length row)%nat -> cell_at j (<[ j := v ]> row) = v.
Proof.
  intros H. rewrite cell_at_lookup, list_lookup_insert_eq by exact H. reflexivity.
Qed.

Lemma cell_at_insert_ne (j j' : nat) (v : cell) (row : list cell) :
  j' <> j -> cell_at j (<[ j' := v ]> row) = cell_at j row.
Proof.
  intros H. rewrite !cell_at_lookup, list_lookup_insert_ne by exact H. reflexivity.
Qed.

Lemma cell_at_pad (j w : nat) (row : list cell) :
  cell_at j (pad w row) = cell_at j row.
Proof.
  unfold cell_at, pad.
  destruct (Nat.lt_ge_cases j (length row)) as [H | H].
  - apply app_nth1. exact H.
  - rewrite app_nth2 by exact H. rewrite nth_repeat.
    symmetry. apply nth_overflow. exact H.
Qed.

Lemma width_ge (data : list (list cell)) (row : list cell) :
  In row data -> (length row <= width data)%nat.
Proof.
  induction data as [| r data IH]; simpl; [intros [] |].
  intros [-> | H]; [lia |]. apply IH in H. lia.
Qed.

Lemma pad_length (w : nat) (row : list cell) :
  (length row <= w)%nat -> length (pad w row) = w.
Proof.
  intros H. unfold pad. rewrite length_app, repeat_length. lia.
Qed.

Lemma set_column_map (j : nat) (g : nat * list cell -> cell) (rows : list (nat * list cell)) :
  set_column j (map g rows) rows = map (fun r => (fst r, <[ j := g r ]> (snd r))) rows.
Proof.
  induction rows as [| [i row] rows IH]; simpl; [reflexivity |].
  rewrite IH. reflexivity.
Qed.

Lemma mapM_map {A B C} (f : B -> result C) (h : A -> B) (g : A -> C) (l : list A) :
  (forall a, In a l -> f (h a) = inr (g a)) ->
  mapM f (map h l) = inr (map g l).
Proof.
  induction l as [| a l IH]; simpl; intros H; [reflexivity |].
  rewrite H by (left; reflexivity). simpl.
  rewrite IH by (intros; apply H; right; assumption). reflexivity.
Qed.

Lemma DataFrame_new_ok (raw : RawDataset) :
  shape_ok raw ->
  DataFrame_new (data raw) (declared_columns raw) =
  inr {| df_columns := declared_columns raw;
         df_rows := combine (seq 0 (length (data raw)))
                            (map (pad (length (declared_columns raw))) (data raw)) |}.
Proof.
  unfold shape_ok, DataFrame_new. intros [H | H].
  - rewrite H. reflexivity.
  - destruct (data raw) as [| row rows] eqn:E; [reflexivity |].
    rewrite H, Nat.eqb_refl. reflexivity.
Qed.

Lemma frame_rows_length (raw : RawDataset) (r : nat * list cell) :
  shape_ok raw ->
  In r (combine (seq 0 (length (data raw)))
                (map (pad (length (declared_columns raw))) (data raw))) ->
  length (snd r) = length (declared_columns raw).
Proof.
  intros Hshape Hin. destruct r as [i row]. apply in_combine_r in Hin.
  apply in_map_iff in Hin. destruct Hin as (row0 & <- & Hin). simpl.
  destruct Hshape as [H | H]; [rewrite H in Hin; destruct Hin |].
  apply pad_length. rewrite <- H. apply width_ge. exact Hin.
Qed.

Lemma set_column_map2 (j : nat) (g : nat * list cell -> cell)
      (h : nat * list cell -> nat * list cell) (rows : list (nat * list cell)) :
  set_column j (map g rows) (map h rows) =
  map (fun r => (fst (h r), <[ j := g r ]> (snd (h r)))) rows.
Proof.
  induction rows as [| r rows IH]; simpl; [reflexivity |].
  rewrite IH. destruct (h r). reflexivity.
Qed.

Lemma map_combine_snd {A B C} (f : B -> C) (l1 : list A) (l2 : list B) :
  map (fun r => (fst r, f (snd r))) (combine l1 l2) = combine l1 (map f l2).
Proof.
  revert l2. induction l1 as [| a l1 IH]; intros [| b l2]; simpl; try reflexivity.
  rewrite IH. reflexivity.
Qed.

Lemma map_snd_combine {A B} (l1 : list A) (l2 : list B) :
  length l1 = length l2 -> map snd (combine l1 l2) = l2.
Proof.
  revert l2. induction l1 as [| a l1 IH]; intros [| b l2] H; simpl in *;
    try discriminate; [reflexivity |].
  f_equal. apply IH. lia.
Qed.

Lemma normalize_rows (parse_datetime : list cell -> cell -> option Z) (raw : RawDataset) :
  declared_once raw -> shape_ok raw ->
  normalize parse_datetime raw =
  inr (combine (seq 0 (length (data raw)))
               (map (normal_row parse_datetime raw) (data raw))).
Proof.
  intros Honce Hshape. unfold normalize.
  fold (declared_columns raw). rewrite (DataFrame_new_ok raw Hshape).
  pose proof (fun r => frame_rows_length raw r Hshape) as Hlen.
  assert (Hdate : map (fun r : nat * list cell =>
                         cell_at (column_index "reportdate" (declared_columns raw)) (snd r))
                      (combine (seq 0 (length (data raw)))
                               (map (pad (length (declared_columns raw))) (data raw))) =
                  map (raw_cell raw "reportdate") (data raw)).
  { rewrite <- (List.map_map snd (cell_at _)).
    rewrite map_snd_combine by (rewrite length_seq, length_map; reflexivity).
    rewrite List.map_map. apply map_ext. intros row. apply cell_at_pad. }
  unfold normal_row, raw_cell in *.
  set (cols := declared_columns raw) in *.
  set (rows := combine _ _) in Hlen, Hdate |- *.
  unfold declared_once, necessary_columns in Honce. fold cols in Honce.
  repeat match goal with
         | H : Forall _ (_ :: _) |- _ =>
             apply List.Forall_cons_iff in H; destruct H as [?H H]
         end.
  repeat match goal with
         | H : count_occ _ _ _ = 1%nat |- _ =>
             apply positions_once in H; destruct H as (?Hpos & ?Hnth & ?Hlt)
         end.
  cbn [bind]. unfold getitem at 1. cbn [df_columns df_rows]. rewrite Hpos6.
  cbn [bind ret to_datetime]. unfold setitem at 1. cbn [df_columns df_rows].
  rewrite Hpos6. cbn [bind ret set_columns map].
  unfold column at 1 2. cbn [df_rows]. rewrite List.map_map, Hdate.
  set (datecol := map _ (data raw)).
  rewrite (set_column_map _ (fun r => coerce parse_datetime datecol
             (cell_at (column_index "reportdate" cols) (snd r)))).
  unfold getitem_list, necessary_columns.
  cbn [df_columns df_rows List.filter flat_map].
  rewrite !Hpos, !Hpos0, !Hpos1, !Hpos2, !Hpos3, !Hpos4, !Hpos5, !Hpos6, !Hpos7.
  cbn [length Nat.eqb app bind ret map].
  rewrite Hnth, Hnth0, Hnth1, Hnth2, Hnth3, Hnth4, Hnth5, Hnth6, Hnth7.
  unfold getitem at 1. cbn [df_columns df_rows].
  change (positions "country" _) with [4%nat].
  cbn [bind ret replace]. unfold setitem. cbn [df_columns df_rows].
  change (positions "country" _) with [4%nat].
  cbn [bind ret set_columns map]. unfold column. cbn [df_rows].
  rewrite !List.map_map. cbn [fst snd].
  rewrite set_column_map2. cbn [fst snd].
  unfold rename_columns. cbn [df_columns df_rows length Nat.eqb].
  match goal with
  | |- _ = inr (combine _ (map ?F _)) => set (row_of := F)
  end.
  rewrite (mapM_map _ _ (fun r => (fst r, row_of (snd r)))).
  - unfold rows. rewrite map_combine_snd, List.map_map.
    do 2 f_equal. apply map_ext. intros row. unfold row_of.
    rewrite !cell_at_pad. reflexivity.
  - intros r Hr. apply Hlen in Hr. cbn [fst snd].
    rewrite cell_at_insert_eq by (rewrite Hr; assumption).
    rewrite !cell_at_insert_ne by congruence.
    reflexivity.
Qed.

Lemma DataFrame_new_inv (data : list (list cell)) (cols : list string) (df : DataFrame) :
  DataFrame_new data cols = inr df ->
  (data = [] \/ width data = length cols) /\ df_columns df = cols.
Proof.
  unfold DataFrame_new. destruct data as [| row data].
  - intros [= <-]. split; [left; reflexivity | reflexivity].
  - destruct (Nat.eqb_spec (length cols) (width (row :: data))) as [E | E];
      [| discriminate].
    intros [= <-]. split; [right; symmetry; exact E | reflexivity].
Qed.

Lemma getitem_inv (df : DataFrame) (key : string) (sel : selection) :
  getitem df key = inr sel ->
  positions key (df_columns df) <> [] /\
  forall vals, sel = Series vals -> exists j, positions key (df_columns df) = [j].
Proof.
  unfold getitem. destruct (positions key (df_columns df)) as [| j [| j' js]];
    [discriminate | |]; intros [= <-]; (split; [discriminate |]).
  - intros vals _. exists j. reflexivity.
  - intros vals [=].
Qed.

Lemma setitem_columns (df df' : DataFrame) (key : string) (value : selection) :
  positions key (df_columns df) <> [] ->
  setitem df key value = inr df' ->
  df_columns df' = df_columns df.
Proof.
  unfold setitem. destruct (positions key (df_columns df)) as [| j js];
    [contradiction |]. intros _. destruct value as [vals | cs].
  - intros [= <-]. reflexivity.
  - destruct (Nat.eqb (length (j :: js)) (length cs)); [| discriminate].
    intros [= <-]. reflexivity.
Qed.

Lemma filter_nil_Forall {A} (p : A -> bool) (l : list A) :
  List.filter p l = [] -> Forall (fun a => p a = false) l.
Proof.
  induction l as [| a l IH]; simpl; [constructor |].
  destruct (p a) eqn:E; [discriminate |]. intros H. constructor; auto.
Qed.

Lemma getitem_list_inv (df df' : DataFrame) (keys : list string) :
  getitem_list df keys = inr df' ->
  Forall (fun k => length (positions k (df_columns df)) <> 0%nat) keys /\
  length (df_columns df') =
  length (flat_map (fun k => positions k (df_columns df)) keys).
Proof.
  unfold getitem_list.
  destruct (List.filter _ keys) as [| missing rest] eqn:E; [| discriminate].
  intros [= <-]. split.
  - apply filter_nil_Forall in E. eapply List.Forall_impl; [| exact E].
    simpl. intros k Hk. apply Nat.eqb_neq. exact Hk.
  - simpl. apply length_map.
Qed.

Lemma rename_columns_inv (df : DataFrame) (t : Table) :
  rename_columns df = inr t -> length (df_columns df) = 9%nat.
Proof.
  unfold rename_columns. destruct (Nat.eqb_spec (length (df_columns df)) 9);
    [auto | discriminate].
Qed.

Lemma normalize_inr_inv (parse_datetime : list cell -> cell -> option Z)
      (raw : RawDataset) (t : Table) :
  normalize parse_datetime raw = inr t -> declared_once raw /\ shape_ok raw.
Proof.
  unfold normalize. fold (declared_columns raw).
  destruct (DataFrame_new _ _) as [e | df0] eqn:E0; [discriminate |].
  apply DataFrame_new_inv in E0. destruct E0 as [Hshape Hc0]. cbn [bind].
  destruct (getitem df0 "reportdate") as [e | sel] eqn:E1; [discriminate |].
  apply getitem_inv in E1. destruct E1 as [Hne1 Hser]. cbn [bind].
  destruct sel as [vals | cs]; [| discriminate].
  destruct (Hser vals eq_refl) as [jd Hjd]. cbn [to_datetime bind ret].
  destruct (setitem df0 "reportdate" _) as [e | df1] eqn:E2; [discriminate |].
  apply setitem_columns in E2; [| exact Hne1]. cbn [bind].
  destruct (getitem_list df1 necessary_columns) as [e | df2] eqn:E3; [discriminate |].
  apply getitem_list_inv in E3. destruct E3 as [Hall Hlen2]. cbn [bind].
  destruct (getitem df2 "country") as [e | c] eqn:E4; [discriminate |].
  apply getitem_inv in E4. destruct E4 as [Hne4 _]. cbn [bind].
  destruct (setitem df2 "country" _) as [e | df3] eqn:E5; [discriminate |].
  apply setitem_columns in E5; [| exact Hne4].
  intros H. apply rename_columns_inv in H.
  split; [| exact Hshape].
  rewrite E5, Hlen2, E2, Hc0 in H. rewrite E2, Hc0 in Hall. clear - H Hall.
  unfold declared_once. unfold necessary_columns in *.
  cbn [flat_map] in H. rewrite !length_app in H. cbn [length] in H.
  unfold positions in *. rewrite !positions_from_length in H.
  repeat match goal with
         | H : Forall _ (_ :: _) |- _ =>
             apply List.Forall_cons_iff in H; destruct H as [?H H]
         end.
  rewrite !positions_from_length in *.
  repeat constructor; lia.
Qed.

Lemma normalize_succeeds_iff (parse_datetime : list cell -> cell -> option Z)
      (raw : RawDataset) :
  (exists t, normalize parse_datetime raw = inr t) <->
  declared_once raw /\ shape_ok raw.
Proof.
  split.
  - intros [t H]. eapply normalize_inr_inv. exact H.
  - intros [H1 H2]. eexists. apply normalize_rows; assumption.
Qed.

Lemma aligned_shape_ok (raw : RawDataset) : aligned raw -> shape_ok raw.
Proof.
  unfold aligned, shape_ok. generalize (length (declared_columns raw)) as n.
  intros n H. induction H as [| row rows Hrow Hrows IH]; [left; reflexivity |].
  right. simpl. destruct IH as [-> | ->]; simpl; lia.
Qed.

Lemma normalize_lookup (parse_datetime : list cell -> cell -> option Z)
      (raw : RawDataset) (t : Table) (i : nat) (row : list cell) :
  normalize parse_datetime raw = inr t ->
  data raw !! i = Some row ->
  t !! i = Some (i, normal_row parse_datetime raw row).
Proof.
  intros H Hrow. destruct (normalize_inr_inv _ _ _ H) as [Honce Hshape].
  rewrite normalize_rows in H by assumption. injection H as <-.
  apply combine_lookup.
  - apply seq_lookup. eapply lookup_lt_Some. exact Hrow.
  - apply map_lookup. exact Hrow.
Qed.


Lemma process_data_ok (parse_datetime : list cell -> cell -> option Z)
      (self : FinancialDataAnalyzer) (raw : RawDataset) (t : Table) :
  raw_data self = Some (Datatable raw) ->
  normalize parse_datetime raw = inr t ->
  process_data parse_datetime self =
  ({| api_key := api_key self; api_url := api_url self;
      username := username self; password := password self;
      raw_data := raw_data self;
      processed_data := Some (Filter t) |},
   Some (Filter t)).
Proof.
  intros Hraw Hn. unfold process_data, process_body. rewrite Hraw, Hn. reflexivity.
Qed.

Lemma country_remap_lookup (code : string) :
  country_remap code =
  match lookup_items country_items code with
  | Some display => display
  | None => code
  end.
Proof.
  unfold country_remap, replace_str. rewrite country_mapping_lookup. reflexivity.
Qed.

(** C4, as amended: the dictionary has 27 entries and no key twice;
    remapping a code gives the display name of the entry with that key when
    there is one and the code itself otherwise; the result is the empty
    string only for the empty code.  In the table that normalization gives,
    the country of the i-th row is the remapped country of the i-th raw row
    when that is a string; a country that is not a string (a missing one) is
    left as it is. *)
Theorem country_remap_lookup_or_identity :
  size _get_country_mapping = 27%nat /\
  length country_items = 27%nat /\
  List.NoDup (map fst country_items) /\
  (forall code : string,
      country_remap code =
      match lookup_items country_items code with
      | Some display => display
      | None => code
      end) /\
  (forall code : string, country_remap code = "" <-> code = "") /\
  (forall (parse_datetime : list cell -> cell -> option Z) (raw : RawDataset)
          (t : Table) (i : nat) (row : list cell),
      normalize parse_datetime raw = inr t ->
      data raw !! i = Some row ->
      exists r : TableRow,
        t !! i = Some (i, r) /\
        country r =
        match raw_cell raw "country" row with
        | CStr code =>
            CStr (match lookup_items country_items code with
                  | Some display => display
                  | None => code
                  end)
        | c => c
        end).
Proof.
  split; [vm_compute; reflexivity |].
  split; [reflexivity |].
  split; [apply country_keys_NoDup |].
  split; [apply country_remap_lookup |]. split.
  - intros code. rewrite country_remap_lookup.
    destruct (lookup_items country_items code) as [display |] eqn:E; [| reflexivity].
    apply lookup_items_In in E. simpl in E.
    repeat (destruct E as [[= <- <-] | E]; [split; discriminate |]).
    contradiction.
  - intros parse_datetime raw t i row Hn Hrow.
    exists (normal_row parse_datetime raw row).
    split; [eapply normalize_lookup; eassumption |].
    unfold normal_row. cbn [country].
    destruct (raw_cell raw "country" row) as [| q | code | ns |]; try reflexivity.
    cbn [replace_cell]. fold (country_remap code).
    rewrite country_remap_lookup. reflexivity.
Qed.

(** C4 as stated fails: the empty code is no key, so it is passed through
    and the country of the row is the empty string; and a row whose country
    is missing keeps a missing country. *)
Lemma country_remap_lookup_or_identity_counterexample :
  country_remap "" = "" /\
  normalize iso_parser dataset_blank_country =
  inr [ (0%nat, {| report_id := CStr "R1"; report_date := CTimestamp 1579046400000000000;
                   report_type := CStr "10-K"; company_name := CStr "Acme";
                   country := CStr ""; region := CStr "NA";
                   indicator := CStr "EBITDA Margin"; statement := CStr "IS";
                   amount := CNum (25 # 2) |});
        (1%nat, {| report_id := CStr "R2"; report_date := CTimestamp 1579046400000000000;
                   report_type := CStr "10-K"; company_name := CStr "Beta";
                   country := CNull; region := CStr "NA";
                   indicator := CStr "EBITDA Margin"; statement := CStr "IS";
                   amount := CNum (7 # 2) |}) ].
Proof. split; vm_compute; reflexivity. Qed.

(** C5, as amended: when each of the nine necessary names is declared
    exactly once and every row has one value per declared column, extraction
    and normalization give a table with as many rows as the data list, the
    i-th of them labelled i. *)
Theorem normalize_row_count :
  forall (parse_datetime : list cell -> cell -> option Z) (raw : RawDataset),
    declared_once raw ->
    aligned raw ->
    exists t : Table,
      normalize parse_datetime raw = inr t /\
      length t = length (data raw) /\
      map fst t = seq 0 (length (data raw)).
Proof.
  intros parse_datetime raw Honce Haligned.
  pose proof (aligned_shape_ok raw Haligned) as Hshape.
  eexists. split; [apply normalize_rows; assumption |]. split.
  - rewrite length_combine, length_seq, length_map. lia.
  - apply map_fst_combine. rewrite length_seq, length_map. reflexivity.
Qed.

Lemma normalize_row_count_witness :
  declared_once sample_dataset /\
  aligned sample_dataset /\
  exists t : Table,
    normalize iso_parser sample_dataset = inr t /\
    length t = length (data sample_dataset) /\
    map fst t = seq 0 (length (data sample_dataset)).
Proof.
  assert (H1 : declared_once sample_dataset).
  { unfold declared_once. repeat (constructor; [vm_compute; reflexivity |]). constructor. }
  assert (H2 : aligned sample_dataset).
  { unfold aligned. repeat (constructor; [vm_compute; reflexivity |]). constructor. }
  split; [exact H1 |]. split; [exact H2 |].
  apply (normalize_row_count iso_parser sample_dataset H1 H2).
Defined.

(** C5 as stated fails: the declared columns of this dataset include the
    nine names (and "amount" a second time), the projection keeps both
    "amount" columns, the nine new labels do not fit the ten columns, and no
    table comes out. *)
Lemma normalize_row_count_counterexample :
  Forall (fun key => In key (declared_columns dataset_duplicate_column))
         necessary_columns /\
  normalize iso_parser dataset_duplicate_column =
  inl (ValueError "Length mismatch: Expected axis has a different number of elements") /\
  ~ (exists t : Table,
        normalize iso_parser dataset_duplicate_column = inr t /\
        length t = length (data dataset_duplicate_column)).
Proof.
  split; [| split].
  - repeat (constructor; [simpl; auto 20 |]). constructor.
  - vm_compute. reflexivity.
  - intros (t & H & _). vm_compute in H. discriminate.
Qed.

(** A row that is shorter than the header is refused by the frame
    constructor. *)
Example normalize_short_row :
  Forall (fun key => In key (declared_columns dataset_short_row)) necessary_columns /\
  normalize iso_parser dataset_short_row =
  inl (ValueError "columns passed, passed data had a different number of columns").
Proof.
  split.
  - repeat (constructor; [simpl; auto 20 |]). constructor.
  - vm_compute. reflexivity.
Qed.


(** C6: in the table that normalization gives, the i-th row carries the
    amount and the report id of the i-th raw row, read in the columns
    declared under these names, and likewise the report type, the long name,
    the region, the indicator and the statement; only the date (coerced) and
    the country (remapped) are computed. *)
Theorem normalize_preserves_values :
  forall (parse_datetime : list cell -> cell -> option Z) (raw : RawDataset)
         (t : Table) (i : nat) (row : list cell),
    normalize parse_datetime raw = inr t ->
    data raw !! i = Some row ->
    exists r : TableRow,
      t !! i = Some (i, r) /\
      amount r = raw_cell raw "amount" row /\
      report_id r = raw_cell raw "reportid" row /\
      report_type r = raw_cell raw "reporttype" row /\
      company_name r = raw_cell raw "longname" row /\
      region r = raw_cell raw "region" row /\
      indicator r = raw_cell raw "indicator" row /\
      statement r = raw_cell raw "statement" row /\
      country r = replace_cell _get_country_mapping (raw_cell raw "country" row) /\
      report_date r = coerce parse_datetime
                        (map (raw_cell raw "reportdate") (data raw))
                        (raw_cell raw "reportdate" row).
Proof.
  intros parse_datetime raw t i row H Hrow.
  exists (normal_row parse_datetime raw row).
  split; [eapply normalize_lookup; eassumption |].
  repeat split.
Qed.

Lemma normalize_preserves_values_witness :
  exists t : Table,
    normalize iso_parser sample_dataset = inr t /\
    exists row : list cell,
      data sample_dataset !! 1%nat = Some row /\
      exists r : TableRow,
        t !! 1%nat = Some (1%nat, r) /\
        amount r = raw_cell sample_dataset "amount" row /\
        report_id r = raw_cell sample_dataset "reportid" row /\
        report_type r = raw_cell sample_dataset "reporttype" row /\
        company_name r = raw_cell sample_dataset "longname" row /\
        region r = raw_cell sample_dataset "region" row /\
        indicator r = raw_cell sample_dataset "indicator" row /\
        statement r = raw_cell sample_dataset "statement" row /\
        country r = replace_cell _get_country_mapping
                      (raw_cell sample_dataset "country" row) /\
        report_date r = coerce iso_parser
                          (map (raw_cell sample_dataset "reportdate") (data sample_dataset))
                          (raw_cell sample_dataset "reportdate" row).
Proof.
  destruct (normalize iso_parser sample_dataset) as [e | t] eqn:E;
    [vm_compute in E; discriminate |].
  exists t. split; [reflexivity |].
  eexists. split; [reflexivity |].
  apply (normalize_preserves_values iso_parser sample_dataset t 1%nat _ E).
  reflexivity.
Defined.




(** The sample dataset through the pipeline: the row dated "not-a-date" is
    in the normalized table with NaT; after the filter only the first row is
    left, its country spelled out. *)
Example normalize_sample :
  normalize iso_parser sample_dataset =
  inr [ (0%nat, {| report_id := CStr "R1"; report_date := CTimestamp 1579046400000000000;
                   report_type := CStr "10-K"; company_name := CStr "Acme";
                   country := CStr "United States"; region := CStr "NA";
                   indicator := CStr "EBITDA Margin"; statement := CStr "IS";
                   amount := CNum (25 # 2) |});
        (1%nat, {| report_id := CStr "R2"; report_date := CNaT;
                   report_type := CStr "10-K"; company_name := CStr "Immutep Ltd";
                   country := CStr "Australia"; region := CStr "APAC";
                   indicator := CStr "EBITDA Margin"; statement := CStr "IS";
                   amount := CNum (1 # 2) |});
        (2%nat, {| report_id := CStr "R3"; report_date := CTimestamp 1579046400000000000;
                   report_type := CStr "10-Q"; company_name := CStr "Zeta";
                   country := CStr "ZZZ"; region := CStr "NA";
                   indicator := CStr "Revenue"; statement := CStr "IS";
                   amount := CNum 3 |}) ].
Proof. vm_compute. reflexivity. Qed.

Example process_body_sample :
  process_body iso_parser sample_dataset =
  inr [ (0%nat, {| report_id := CStr "R1"; report_date := CTimestamp 1579046400000000000;
                   report_type := CStr "10-K"; company_name := CStr "Acme";
                   country := CStr "United States"; region := CStr "NA";
                   indicator := CStr "EBITDA Margin"; statement := CStr "IS";
                   amount := CNum (25 # 2) |}) ].
Proof. vm_compute. reflexivity. Qed.


(** C8: when one of the nine necessary names is not among the declared
    columns, the body of [process_data] raises, [process_data] returns
    nothing and the analyzer, its processed data included, is as before the
    call. *)
Theorem missing_column_aborts :
  forall (parse_datetime : list cell -> cell -> option Z)
         (self : FinancialDataAnalyzer) (raw : RawDataset),
    raw_data self = Some (Datatable raw) ->
    (exists key, In key necessary_columns /\ ~ In key (declared_columns raw)) ->
    (exists e, process_body parse_datetime raw = inl e) /\
    process_data parse_datetime self = (self, None).
Proof.
  intros parse_datetime self raw Hraw (key & Hkey & Hmissing).
  assert (Hfail : exists e, normalize parse_datetime raw = inl e).
  { destruct (normalize parse_datetime raw) as [e | t] eqn:E; [exists e; reflexivity |].
    exfalso. apply normalize_inr_inv in E. destruct E as [Honce _].
    unfold declared_once in Honce. rewrite List.Forall_forall in Honce.
    apply Honce in Hkey. apply Hmissing.
    apply (count_occ_In string_dec). lia. }
  destruct Hfail as [e He]. unfold process_data, process_body.
  rewrite Hraw, He. split; [exists e |]; reflexivity.
Qed.

Lemma missing_column_aborts_witness :
  raw_data (sample_analyzer dataset_without_amount) =
  Some (Datatable dataset_without_amount) /\
  (exists key, In key necessary_columns /\
               ~ In key (declared_columns dataset_without_amount)) /\
  (exists e, process_body iso_parser dataset_without_amount = inl e) /\
  process_data iso_parser (sample_analyzer dataset_without_amount) =
  (sample_analyzer dataset_without_amount, None).
Proof.
  assert (H : exists key, In key necessary_columns /\
                          ~ In key (declared_columns dataset_without_amount)).
  { exists "amount". split; [simpl; auto 20 |].
    simpl. intros Hin. repeat (destruct Hin as [Hin | Hin]; [discriminate |]).
    exact Hin. }
  split; [reflexivity |]. split; [exact H |].
  apply (missing_column_aborts iso_parser (sample_analyzer dataset_without_amount)
           dataset_without_amount eq_refl H).
Defined.

Example process_body_without_amount :
  process_body iso_parser dataset_without_amount = inl (KeyError "amount").
Proof. vm_compute. reflexivity. Qed.

(** * Further properties *)

(** ** [process_data] as a whole *)

Lemma process_data_fail (parse_datetime : list cell -> cell -> option Z)
      (self : FinancialDataAnalyzer) :
  snd (process_data parse_datetime self) = None ->
  process_data parse_datetime self = (self, None).
Proof.
  unfold process_data. destruct (raw_data self) as [[raw | e] |]; try reflexivity.
  destruct (process_body parse_datetime raw); [reflexivity | discriminate].
Qed.

Lemma process_body_inr (parse_datetime : list cell -> cell -> option Z)
      (raw : RawDataset) (t : Table) :
  process_body parse_datetime raw = inr t <->
  exists t0, normalize parse_datetime raw = inr t0 /\ t = Filter t0.
Proof.
  unfold process_body. destruct (normalize parse_datetime raw) as [e | t0]; simpl.
  - split; [discriminate | intros (t1 & [=] & _)].
  - unfold ret. split.
    + intros [= <-]. exists t0. split; reflexivity.
    + intros (t1 & [= <-] & ->). reflexivity.
Qed.

(** X1: [process_data] returns nothing exactly when the raw data are not a
    datatable (there are none, or the body stored is some other JSON value),
    or a necessary column is not declared exactly once, or the rows do not
    fit the header; it then leaves the analyzer as it was.  When it returns
    a table, that table is also the stored processed data, and nothing else
    of the analyzer has changed. *)
Theorem process_data_outcome :
  forall (parse_datetime : list cell -> cell -> option Z) (self : FinancialDataAnalyzer),
    (snd (process_data parse_datetime self) = None <->
     forall raw, raw_data self = Some (Datatable raw) -> ~ (declared_once raw /\ shape_ok raw)) /\
    (snd (process_data parse_datetime self) = None ->
     fst (process_data parse_datetime self) = self) /\
    (forall t, snd (process_data parse_datetime self) = Some t ->
               processed_data (fst (process_data parse_datetime self)) = Some t /\
               raw_data (fst (process_data parse_datetime self)) = raw_data self /\
               api_key (fst (process_data parse_datetime self)) = api_key self /\
               api_url (fst (process_data parse_datetime self)) = api_url self /\
               username (fst (process_data parse_datetime self)) = username self /\
               password (fst (process_data parse_datetime self)) = password self).
Proof.
  intros parse_datetime self. split; [| split].
  - unfold process_data, process_body.
    destruct (raw_data self) as [[raw | e0] |] eqn:Hraw.
    + destruct (normalize parse_datetime raw) as [e | t] eqn:E; simpl.
      * split; [| reflexivity]. intros _ raw' [= <-] H.
        destruct H as [H1 H2]. rewrite normalize_rows in E by assumption.
        discriminate.
      * split; [discriminate |]. intros H. exfalso. apply (H raw eq_refl).
        eapply normalize_inr_inv. exact E.
    + simpl. split; [discriminate | reflexivity].
    + simpl. split; [discriminate | reflexivity].
  - intros H. rewrite (process_data_fail _ _ H). reflexivity.
  - intros t. unfold process_data. destruct (raw_data self) as [[raw | e0] |] eqn:Hraw;
      try discriminate.
    destruct (process_body parse_datetime raw) as [e | t']; [discriminate |].
    simpl. intros [= <-]. repeat split.
Qed.

(** X2: processing a second time changes nothing: the analyzer and the
    value returned are those of the first call. *)
Theorem process_data_twice :
  forall (parse_datetime : list cell -> cell -> option Z) (self : FinancialDataAnalyzer),
    process_data parse_datetime (fst (process_data parse_datetime self)) =
    process_data parse_datetime self.
Proof.
  intros parse_datetime self. unfold process_data.
  destruct (raw_data self) as [[raw | e0] |] eqn:Hraw; cbn [fst].
  - destruct (process_body parse_datetime raw) as [e | t] eqn:E;
      cbn [fst raw_data]; rewrite ?Hraw, ?E; reflexivity.
  - rewrite Hraw. reflexivity.
  - rewrite Hraw. reflexivity.
Qed.

Lemma filter_map_pairs {A B} (f : A -> B) (P : nat * B -> Prop) (Q : nat * A -> Prop)
      `{!forall x, Decision (P x)} `{!forall x, Decision (Q x)} (l : list (nat * A)) :
  (forall x, P (fst x, f (snd x)) <-> Q x) ->
  filter P (map (fun x => (fst x, f (snd x))) l) =
  map (fun x => (fst x, f (snd x))) (filter Q l).
Proof.
  intros Hpq. induction l as [| x l IH]; [reflexivity |].
  cbn [map]. rewrite !filter_cons.
  destruct (decide (P (fst x, f (snd x)))) as [HP | HP];
    destruct (decide (Q x)) as [HQ | HQ].
  - cbn [map]. rewrite IH. reflexivity.
  - apply Hpq in HP. contradiction.
  - apply Hpq in HQ. contradiction.
  - exact IH.
Qed.

(** X3: the table that the body of [process_data] computes is made, in the
    order of the response, of the normalized rows of exactly those raw rows
    whose raw indicator is "EBITDA Margin" and whose raw long name is not
    "Immutep Ltd"; each carries as its label the position of its raw row. *)
Theorem process_body_selects_raw_rows :
  forall (parse_datetime : list cell -> cell -> option Z) (raw : RawDataset),
    declared_once raw ->
    shape_ok raw ->
    process_body parse_datetime raw =
    inr (map (fun ir => (fst ir, normal_row parse_datetime raw (snd ir)))
             (filter (selected raw) (combine (seq 0 (length (data raw))) (data raw)))).
Proof.
  intros parse_datetime raw Honce Hshape. unfold process_body.
  rewrite normalize_rows by assumption. cbn [bind]. unfold ret. f_equal.
  rewrite Filter_filter, <- map_combine_snd.
  apply filter_map_pairs. intros ir. unfold kept, selected. reflexivity.
Qed.

Lemma sample_dataset_once : declared_once sample_dataset.
Proof.
  unfold declared_once. repeat (constructor; [vm_compute; reflexivity |]). constructor.
Qed.

Lemma sample_dataset_shape : shape_ok sample_dataset.
Proof. right. vm_compute. reflexivity. Qed.

Lemma process_body_selects_raw_rows_witness :
  declared_once sample_dataset /\
  shape_ok sample_dataset /\
  process_body iso_parser sample_dataset =
  inr (map (fun ir => (fst ir, normal_row iso_parser sample_dataset (snd ir)))
           (filter (selected sample_dataset)
                   (combine (seq 0 (length (data sample_dataset))) (data sample_dataset)))).
Proof.
  split; [apply sample_dataset_once |]. split; [apply sample_dataset_shape |].
  apply (process_body_selects_raw_rows iso_parser sample_dataset
           sample_dataset_once sample_dataset_shape).
Defined.

Lemma Forall2_map_eq {A B} (f g : A -> B) (l l' : list A) :
  Forall2 (fun a a' => f a = g a') l l' -> map f l = map g l'.
Proof.
  induction 1 as [| a a' l l' H _ IH]; simpl; [reflexivity |].
  rewrite H, IH. reflexivity.
Qed.

(** X4: only the nine necessary columns matter.  Two responses whose rows
    carry, one by one, the same values under the nine necessary names give
    the same normalized table, whatever the order of their columns and
    whatever other columns they have. *)
Theorem normalize_ignores_other_columns :
  forall (parse_datetime : list cell -> cell -> option Z) (raw raw' : RawDataset),
    declared_once raw -> shape_ok raw ->
    declared_once raw' -> shape_ok raw' ->
    Forall2 (agree raw raw') (data raw) (data raw') ->
    normalize parse_datetime raw = normalize parse_datetime raw' /\
    process_body parse_datetime raw = process_body parse_datetime raw'.
Proof.
  intros parse_datetime raw raw' Honce Hshape Honce' Hshape' Hagree.
  assert (Hn : normalize parse_datetime raw = normalize parse_datetime raw').
  { rewrite !normalize_rows by assumption.
    rewrite (Forall2_length _ _ _ Hagree). do 2 f_equal.
    assert (Hdate : map (raw_cell raw "reportdate") (data raw) =
                    map (raw_cell raw' "reportdate") (data raw')).
    { apply Forall2_map_eq. eapply Forall2_impl; [exact Hagree |].
      intros row row' H. unfold agree, necessary_columns in H.
      rewrite List.Forall_forall in H. apply H. simpl. auto 20. }
    apply Forall2_map_eq. eapply Forall2_impl; [exact Hagree |].
    intros row row' H. unfold agree, necessary_columns in H.
    repeat match goal with
           | H : Forall _ (_ :: _) |- _ =>
               apply List.Forall_cons_iff in H; destruct H as [?H H]
           end.
    unfold normal_row. rewrite Hdate. congruence. }
  split; [exact Hn |]. unfold process_body. rewrite Hn. reflexivity.
Qed.

Lemma sample_dataset_wide_once : declared_once sample_dataset_wide.
Proof.
  unfold declared_once. repeat (constructor; [vm_compute; reflexivity |]). constructor.
Qed.

Lemma sample_dataset_wide_shape : shape_ok sample_dataset_wide.
Proof. right. vm_compute. reflexivity. Qed.

Lemma sample_datasets_agree :
  Forall2 (agree sample_dataset sample_dataset_wide)
          (data sample_dataset) (data sample_dataset_wide).
Proof.
  unfold agree.
  repeat (constructor;
          [repeat (constructor; [vm_compute; reflexivity |]); constructor |]).
  constructor.
Qed.

Lemma normalize_ignores_other_columns_witness :
  normalize iso_parser sample_dataset = normalize iso_parser sample_dataset_wide /\
  process_body iso_parser sample_dataset = process_body iso_parser sample_dataset_wide.
Proof.
  apply (normalize_ignores_other_columns iso_parser sample_dataset sample_dataset_wide
           sample_dataset_once sample_dataset_shape
           sample_dataset_wide_once sample_dataset_wide_shape
           sample_datasets_agree).
Defined.

(** ** Aggregation: undated rows, failure, the chart *)

Lemma filter_dated (df : Table) :
  List.filter (fun r => is_timestamp (report_date (snd r))) df = filter dated df.
Proof.
  apply List_filter_decide. intros r. unfold dated.
  destruct (is_timestamp (report_date (snd r))); simpl; split; auto; discriminate.
Qed.

(** X5: rows without a date play no part in the aggregation: removing them
    from a table leaves the outcome of the aggregation, the series of means
    or the exception, as it is, whatever their amounts are. *)
Theorem time_trend_ignores_undated_rows :
  forall (fm : float_means) (df : Table),
    time_trend fm (filter dated df) = time_trend fm df.
Proof.
  intros fm df. unfold time_trend. rewrite !filter_dated.
  rewrite list_filter_filter.
  replace (filter (fun r => dated r /\ dated r) df) with (filter dated df)
    by (apply list_filter_iff; tauto).
  reflexivity.
Qed.

Lemma mapM_inr {A B} (f : A -> result B) (l : list A) (l' : list B) :
  mapM f l = inr l' -> Forall (fun a => exists b, f a = inr b) l.
Proof.
  revert l'. induction l as [| a l IH]; intros l'; simpl; [constructor |].
  destruct (f a) as [e | b] eqn:E; [discriminate |]. cbn [bind].
  destruct (mapM f l) as [e | bs] eqn:E'; [discriminate |].
  intros _. constructor; [exists b; exact E | eapply IH; reflexivity].
Qed.

Lemma mapM_as_float_inl (df : Table) (e : exn) :
  mapM (fun r => as_float (amount (snd r))) df = inl e ->
  e = TypeError "agg function failed [how->mean,dtype->object]".
Proof.
  induction df as [| r df IH]; simpl; [discriminate |].
  destruct (amount (snd r)); cbn [as_float bind ret raise];
    try (intros [= <-]; reflexivity);
    destruct (mapM _ df) as [e' | l]; cbn [bind ret];
    try discriminate; intros [= <-]; apply IH; reflexivity.
Qed.

Lemma time_trend_succeeds_dated (fm : float_means) (df : Table) :
  (exists ts, time_trend fm df = inr ts) ->
  Forall (fun r => dated r -> numeric (amount (snd r))) df.
Proof.
  intros [ts Hts]. unfold time_trend in Hts.
  destruct (mapM _ _) as [e | amounts] eqn:E; [discriminate |].
  apply mapM_inr in E. rewrite List.Forall_forall in *.
  intros r Hr Hd. destruct (E r) as [v Hv].
  - apply filter_In. split; [exact Hr |]. unfold dated in Hd.
    destruct (is_timestamp (report_date (snd r))); [reflexivity | contradiction].
  - unfold numeric. destruct (amount (snd r)) as [| q | | |]; try discriminate.
    + left. reflexivity.
    + right. exists q. reflexivity.
Qed.

(** X6: the aggregation succeeds exactly when the amount of every dated
    row is a number or is missing.  Otherwise pandas cannot average the
    column and a [TypeError] is raised; an amount that is not a number does
    no harm in a row without a date. *)
Theorem time_trend_succeeds_iff :
  forall (fm : float_means) (df : Table),
    ((exists ts, time_trend fm df = inr ts) <->
     Forall (fun r => dated r -> numeric (amount (snd r))) df) /\
    (forall e, time_trend fm df = inl e ->
               e = TypeError "agg function failed [how->mean,dtype->object]").
Proof.
  intros fm df. split; [split |].
  - apply time_trend_succeeds_dated.
  - intros H. eexists. apply time_trend_groups_dated. exact H.
  - intros e He. unfold time_trend in He.
    destruct (mapM _ _) as [e' | amounts] eqn:E; [| discriminate].
    cbn [bind] in He. injection He as <-. eapply mapM_as_float_inl. exact E.
Qed.



(** ** Smoothing with any window size *)

Lemma half_le (w : nat) : ((w - 1) / 2 <= w - 1)%nat.
Proof. apply Nat.Div0.div_le_upper_bound. lia. Qed.

(** X8: with a window of size [w], the value at a position is missing when
    fewer than [w - 1 - (w - 1) / 2] positions come before it or fewer than
    [(w - 1) / 2] after it: the window would reach outside the series.  In
    particular a series shorter than the window is smoothed to missing
    values only. *)
Theorem rolling_mean_edges :
  forall (fm : float_means) (w : nat) (s : TimeSeries) (i : nat) (x : Z * option Q),
    s !! i = Some x ->
    (i < centre w \/ length s <= i + (w - 1) / 2)%nat ->
    rolling_mean fm w s !! i = Some (fst x, None).
Proof.
  intros fm w s i [d v] Hx Hedge. rewrite (rolling_mean_lookup fm w s i d v Hx).
  rewrite roll_mean_short; [reflexivity |].
  pose proof (window_length w i (map snd s)) as H. rewrite length_map in H.
  pose proof (half_le w) as Hhalf. unfold centre in Hedge.
  apply lookup_lt_Some in Hx. lia.
Qed.

Lemma rolling_mean_edges_witness :
  rolling_mean binary64 4 [ (1%Z, Some 1%Q); (2%Z, Some 2%Q); (3%Z, Some 6%Q) ] !! 2%nat =
  Some (3%Z, None).
Proof.
  apply (rolling_mean_edges binary64 4
           [ (1%Z, Some 1%Q); (2%Z, Some 2%Q); (3%Z, Some 6%Q) ]
           2%nat (3%Z, Some 6%Q) eq_refl).
  right. vm_compute. lia.
Defined.






Example rolling_mean_sample :
  rolling_mean binary64 4
    [ (1%Z, Some 5%Q); (2%Z, Some 1%Q); (3%Z, Some 2%Q); (4%Z, Some 6%Q);
      (5%Z, Some 3%Q); (6%Z, None) ] =
  [ (1%Z, None); (2%Z, None); (3%Z, Some (7 # 2)); (4%Z, Some 3%Q);
    (5%Z, None); (6%Z, None) ].
Proof. vm_compute. reflexivity. Qed.



(** ** The country dictionary, again *)

Lemma country_names_NoDup : List.NoDup (map snd country_items).
Proof.
  apply (NoDup_count_occ' string_dec).
  intros k Hk. simpl in Hk.
  repeat (destruct Hk as [<- | Hk]; [vm_compute; reflexivity |]).
  contradiction.
Qed.

Lemma NoDup_snd_injective {A B} (l : list (A * B)) (a1 a2 : A) (b : B) :
  List.NoDup (map snd l) -> In (a1, b) l -> In (a2, b) l -> a1 = a2.
Proof.
  induction l as [| [a b'] l IH]; simpl; [intros _ [] |].
  intros Hnd H1 H2. inversion Hnd as [| ? ? Hnotin Hnd']; subst.
  destruct H1 as [H1 | H1]; destruct H2 as [H2 | H2]; pair_eq.
  - reflexivity.
  - exfalso. apply Hnotin. apply (in_map snd) in H2. exact H2.
  - exfalso. apply Hnotin. apply (in_map snd) in H1. exact H1.
  - apply IH; assumption.
Qed.

(** X12: remapping is stable and merges no two countries: no display name
    is itself a key, so a remapped value is left alone by a second remap, and
    two different keys never have the same display name. *)
Theorem country_remap_stable_injective :
  (forall code : string, country_remap (country_remap code) = country_remap code) /\
  (forall code1 code2 display : string,
      In (code1, display) country_items ->
      In (code2, display) country_items ->
      code1 = code2).
Proof.
  split.
  - intros code. unfold country_remap at 2 3, replace_str.
    rewrite country_mapping_lookup.
    destruct (lookup_items country_items code) as [display |] eqn:E.
    + apply lookup_items_In in E. simpl in E.
      repeat (destruct E as [[= <- <-] | E]; [vm_compute; reflexivity |]).
      contradiction.
    + unfold country_remap, replace_str. rewrite country_mapping_lookup, E.
      reflexivity.
  - intros code1 code2 display H1 H2.
    eapply NoDup_snd_injective; [apply country_names_NoDup | eassumption ..].
Qed.

(** ** Login *)

Lemma authenticate_iff_credentials_aux (self : FinancialDataAnalyzer) (w : World) :
  fst (authenticate self w) = true <-> login_ok self w.
Proof.
  unfold authenticate, login_ok, input, pwinput, read_line.
  cbn [prompts typed]. rewrite length_app. cbn [length].
  replace (length (prompts w) + 1)%nat with (S (length (prompts w))) by lia.
  destruct (String.eqb_spec (typed w (length (prompts w))) (username self)) as [Hu | Hu];
    cbn [negb].
  - destruct (String.eqb_spec (typed w (S (length (prompts w)))) (password self)) as [Hp | Hp];
      cbn [negb fst].
    + split; [intros _; split; assumption | reflexivity].
    + split; [discriminate | tauto].
  - cbn [fst]. split; [discriminate | tauto].
Qed.

Lemma authenticate_world (self : FinancialDataAnalyzer) (w : World) :
  sent (snd (authenticate self w)) = sent w /\
  charts (snd (authenticate self w)) = charts w /\
  server (snd (authenticate self w)) = server w.
Proof.
  unfold authenticate, input, pwinput, read_line.
  destruct (negb _); [repeat split |]. cbn [typed prompts].
  destruct (negb _); repeat split.
Qed.

(** X13: [authenticate] succeeds exactly when the first line typed is the
    user name of the analyzer and the second its password, both compared as
    they are; it sends nothing and shows nothing. *)
Theorem authenticate_iff_credentials :
  forall (self : FinancialDataAnalyzer) (w : World),
    (fst (authenticate self w) = true <-> login_ok self w) /\
    sent (snd (authenticate self w)) = sent w /\
    charts (snd (authenticate self w)) = charts w.
Proof.
  intros self w. split; [apply authenticate_iff_credentials_aux |].
  destruct (authenticate_world self w) as (H1 & H2 & _). split; assumption.
Qed.

(** X14: after a wrong user name the password is not asked for: only the
    user name prompt has been answered.  After the right user name the
    password is asked for, masked. *)
Theorem authenticate_prompts :
  forall (self : FinancialDataAnalyzer) (w : World),
    prompts (snd (authenticate self w)) =
    prompts w ++
    Input "Enter Username: " ::
    (if decide (typed w (length (prompts w)) = username self)
     then [PwInput "Enter Your Password: "] else []).
Proof.
  intros self w. unfold authenticate, input, pwinput, read_line.
  cbn [prompts typed].
  destruct (String.eqb_spec (typed w (length (prompts w))) (username self)) as [Hu | Hu];
    destruct (decide _) as [Hd | Hd]; try contradiction; cbn [negb].
  - destruct (negb _); cbn [snd prompts]; rewrite <- app_assoc; reflexivity.
  - reflexivity.
Qed.

(** ** Fetching *)

Lemma fetch_data_world (self : FinancialDataAnalyzer) (n : Z) (w : World) :
  snd (fetch_data self n w) =
  snd (requests_get (api_url self) (req_params (request_of self n)) w).
Proof.
  unfold fetch_data, requests_get. cbn zeta. fold (request_of self n).
  destruct (server w (sent w) (request_of self n)) as [response |]; [| reflexivity].
  destruct (raise_for_status response); [reflexivity |].
  destruct (json response) as [[raw | e] |]; reflexivity.
Qed.

Lemma raise_for_status_ok (response : Response) :
  status_ok response -> raise_for_status response = false.
Proof.
  unfold raise_for_status, status_ok. intros Hok.
  destruct ((400 <=? status_code response) && (status_code response <? 600))%Z eqn:E;
    [| reflexivity].
  exfalso. apply Hok. apply andb_prop in E. destruct E as [H1 H2].
  apply Z.leb_le in H1. apply Z.ltb_lt in H2. lia.
Qed.

Lemma fetch_data_ok (self : FinancialDataAnalyzer) (n : Z) (w : World)
      (response : Response) (raw : RawDataset) :
  server w (sent w) (request_of self n) = Some response ->
  status_ok response ->
  json response = Some (Datatable raw) ->
  fetch_data self n w =
  (inr true, set_raw_data self (Datatable raw),
   snd (requests_get (api_url self) (req_params (request_of self n)) w)).
Proof.
  intros Hs Hok Hbody. unfold fetch_data, requests_get. cbn zeta.
  fold (request_of self n). rewrite Hs, (raise_for_status_ok _ Hok), Hbody.
  reflexivity.
Qed.

Lemma fetch_data_malformed (self : FinancialDataAnalyzer) (n : Z) (w : World)
      (response : Response) (e : exn) :
  server w (sent w) (request_of self n) = Some response ->
  status_ok response ->
  json response = Some (Malformed e) ->
  fetch_data self n w =
  (inl e, set_raw_data self (Malformed e),
   snd (requests_get (api_url self) (req_params (request_of self n)) w)).
Proof.
  intros Hs Hok Hbody. unfold fetch_data, requests_get. cbn zeta.
  fold (request_of self n). rewrite Hs, (raise_for_status_ok _ Hok), Hbody.
  reflexivity.
Qed.

Lemma fetch_data_failed (self : FinancialDataAnalyzer) (n : Z) (w : World) :
  (server w (sent w) (request_of self n) = None \/
   exists response, server w (sent w) (request_of self n) = Some response /\
                    ((400 <= status_code response < 600)%Z \/ json response = None)) ->
  fetch_data self n w =
  (inr false, self, snd (requests_get (api_url self) (req_params (request_of self n)) w)).
Proof.
  intros H. unfold fetch_data, requests_get. cbn zeta. fold (request_of self n).
  destruct H as [-> | (response & -> & H)]; [reflexivity |].
  destruct (raise_for_status response) eqn:E; [reflexivity |].
  destruct H as [[H1 H2] | ->]; [| reflexivity].
  unfold raise_for_status in E.
  apply Z.leb_le in H1. apply Z.ltb_lt in H2. rewrite H1, H2 in E. discriminate.
Qed.

Lemma fetch_data_cases (self : FinancialDataAnalyzer) (n : Z) (w : World) :
  (exists response raw,
      server w (sent w) (request_of self n) = Some response /\ status_ok response /\
      json response = Some (Datatable raw)) \/
  (exists response e,
      server w (sent w) (request_of self n) = Some response /\ status_ok response /\
      json response = Some (Malformed e)) \/
  (server w (sent w) (request_of self n) = None \/
   exists response, server w (sent w) (request_of self n) = Some response /\
                    ((400 <= status_code response < 600)%Z \/ json response = None)).
Proof.
  destruct (server w (sent w) (request_of self n)) as [response |];
    [| right; right; left; reflexivity].
  destruct (decide (400 <= status_code response < 600)%Z) as [H | H].
  { right. right. right. exists response. split; [reflexivity | left; exact H]. }
  destruct (json response) as [[raw | e] |] eqn:Hbody.
  - left. exists response, raw. repeat split; assumption.
  - right. left. exists response, e. repeat split; assumption.
  - right. right. right. exists response. split; [reflexivity | right; exact Hbody].
Qed.

(** X15: [fetch_data] sends one request, to the URL of the analyzer with its
    API key and the page size, and never touches the processed data.
    - It returns true exactly when a response comes back whose status is not
      between 400 and 599 and whose body is a datatable; the body is then
      the raw data.
    - It returns false exactly when the request raises, or the status is
      between 400 and 599, or the body is not JSON; the analyzer is then as
      before.
    - It raises exactly when the status is good and the body is JSON but
      not a datatable: the exception of the lookup escapes, and the body has
      already been stored as the raw data. *)
Theorem fetch_data_outcome :
  forall (self : FinancialDataAnalyzer) (records_per_page : Z) (w : World),
    let out := fetch_data self records_per_page w in
    let got := server w (sent w) (request_of self records_per_page) in
    sent (snd out) = sent w ++ [request_of self records_per_page] /\
    charts (snd out) = charts w /\
    prompts (snd out) = prompts w /\
    processed_data (snd (fst out)) = processed_data self /\
    (fst (fst out) = inr true <->
     exists response raw,
       got = Some response /\ status_ok response /\
       json response = Some (Datatable raw)) /\
    (fst (fst out) = inr false <->
     got = None \/
     exists response,
       got = Some response /\
       ((400 <= status_code response < 600)%Z \/ json response = None)) /\
    (forall e, fst (fst out) = inl e <->
               exists response,
                 got = Some response /\ status_ok response /\
                 json response = Some (Malformed e)) /\
    (fst (fst out) = inr false -> snd (fst out) = self) /\
    (forall response body,
        got = Some response -> status_ok response -> json response = Some body ->
        snd (fst out) = set_raw_data self body).
Proof.
  intros self n w. cbn zeta. rewrite fetch_data_world.
  split; [reflexivity |]. split; [reflexivity |]. split; [reflexivity |].
  destruct (fetch_data_cases self n w)
    as [(response & raw & Hs & Hok & Hbody) | [(response & e & Hs & Hok & Hbody) | Hfail]].
  - rewrite (fetch_data_ok self n w response raw Hs Hok Hbody). cbn [fst snd].
    rewrite Hs. split; [reflexivity |]. repeat split; try discriminate.
    + intros _. exists response, raw. repeat split; assumption.
    + intros [[=] | (r & [= <-] & [Hbad | Hnone])]; [contradiction | congruence].
    + intros (r & [= <-] & _ & H). congruence.
    + intros r body [= <-] _ H. congruence.
  - rewrite (fetch_data_malformed self n w response e Hs Hok Hbody). cbn [fst snd].
    rewrite Hs. split; [reflexivity |]. repeat split; try discriminate.
    + intros (r & raw & [= <-] & _ & H). congruence.
    + intros [[=] | (r & [= <-] & [Hbad | Hnone])]; [contradiction | congruence].
    + intros [= <-]. exists response. repeat split; assumption.
    + intros (r & [= <-] & _ & H). congruence.
    + intros r body [= <-] _ H. congruence.
  - rewrite (fetch_data_failed self n w Hfail). cbn [fst snd].
    split; [reflexivity |].
    assert (Hno : forall response, server w (sent w) (request_of self n) = Some response ->
                                   status_ok response -> json response = None).
    { intros r Hr Hok. destruct Hfail as [Hnone | (r' & Hr' & [Hbad | Hnone])].
      - congruence.
      - exfalso. apply Hok. congruence.
      - congruence. }
    repeat split; try discriminate.
    + intros (r & raw & Hr & Hok & H). rewrite (Hno r Hr Hok) in H. discriminate.
    + intros _. exact Hfail.
    + intros (r & Hr & Hok & H). rewrite (Hno r Hr Hok) in H. discriminate.
    + intros r body Hr Hok H. rewrite (Hno r Hr Hok) in H. discriminate.
Qed.

(** ** The whole run *)

Lemma authenticate_ok (self : FinancialDataAnalyzer) (w : World) :
  login_ok self w -> authenticate self w = (true, after_login w).
Proof.
  intros [Hu Hp]. unfold authenticate, after_login, input, pwinput, read_line.
  cbn [prompts typed snd]. rewrite length_app. cbn [length].
  replace (length (prompts w) + 1)%nat with (S (length (prompts w))) by lia.
  rewrite Hu, Hp, !String.eqb_refl. reflexivity.
Qed.

Lemma authenticate_fail (self : FinancialDataAnalyzer) (w : World) :
  ~ login_ok self w -> fst (authenticate self w) = false.
Proof.
  intros H. destruct (fst (authenticate self w)) eqn:E; [| reflexivity].
  exfalso. apply H. apply (authenticate_iff_credentials_aux self w). exact E.
Qed.

Lemma run_after_login (parse_datetime : list cell -> cell -> option Z) (fm : float_means)
      (self : FinancialDataAnalyzer) (w : World) :
  login_ok self w ->
  run parse_datetime fm self w =
  let '(fetched, self1, w1) := fetch_data self 10000 (after_login w) in
  match fetched with
  | inl e => (Some e, self1, w1)
  | inr false => (None, self1, w1)
  | inr true =>
      let '(self2, processed) := process_data parse_datetime self1 in
      match processed with
      | None => (None, self2, w1)
      | Some _ =>
          match visualize_trends fm self2 3 with
          | inl e => (Some e, self2, w1)
          | inr None => (None, self2, w1)
          | inr (Some plot) => (None, self2, show plot w1)
          end
      end
  end.
Proof.
  intros H. unfold run. rewrite (authenticate_ok self w H). reflexivity.
Qed.

Lemma after_login_world (w : World) :
  sent (after_login w) = sent w /\
  charts (after_login w) = charts w /\
  server (after_login w) = server w.
Proof. repeat split. Qed.

Lemma run_login_failed (parse_datetime : list cell -> cell -> option Z) (fm : float_means)
      (self : FinancialDataAnalyzer) (w : World) :
  ~ login_ok self w ->
  run parse_datetime fm self w = (None, self, snd (authenticate self w)).
Proof.
  intros H. unfold run. pose proof (authenticate_fail self w H) as Hf.
  destruct (authenticate self w) as [ok w1]. cbn [fst snd] in *. subst ok.
  reflexivity.
Qed.

Lemma run_sent_after_login (parse_datetime : list cell -> cell -> option Z)
      (fm : float_means) (self : FinancialDataAnalyzer) (w : World) :
  login_ok self w ->
  sent (snd (run parse_datetime fm self w)) = sent w ++ [request_of self 10000].
Proof.
  intros H. rewrite (run_after_login _ _ _ _ H).
  pose proof (fetch_data_world self 10000 (after_login w)) as Hw.
  destruct (fetch_data self 10000 (after_login w)) as [[fetched self1] w1].
  cbn [snd] in Hw. subst w1.
  destruct fetched as [e | [|]]; try reflexivity.
  destruct (process_data parse_datetime self1) as [self2 [t |]]; [| reflexivity].
  destruct (visualize_trends fm self2 3) as [e | [plot |]]; reflexivity.
Qed.

Lemma run_processed (parse_datetime : list cell -> cell -> option Z) (fm : float_means)
      (self : FinancialDataAnalyzer) (w : World)
      (response : Response) (raw : RawDataset) (t : Table) :
  login_ok self w ->
  server w (sent w) (request_of self 10000) = Some response ->
  status_ok response ->
  json response = Some (Datatable raw) ->
  normalize parse_datetime raw = inr t ->
  run parse_datetime fm self w =
  let self2 := set_processed_data (set_raw_data self (Datatable raw)) (Filter t) in
  let w1 := snd (requests_get (api_url self) (req_params (request_of self 10000))
                   (after_login w)) in
  match visualize_trends fm self2 3 with
  | inl e => (Some e, self2, w1)
  | inr None => (None, self2, w1)
  | inr (Some plot) => (None, self2, show plot w1)
  end.
Proof.
  intros Hlogin Hserver Hok Hbody Hn.
  rewrite (run_after_login _ _ _ _ Hlogin).
  rewrite (fetch_data_ok self 10000 (after_login w) response raw Hserver Hok Hbody).
  rewrite (process_data_ok parse_datetime (set_raw_data self (Datatable raw))
             raw t eq_refl Hn).
  reflexivity.
Qed.

(** X16: without the right user name and password nothing happens: [run]
    sends no request, shows no chart, raises nothing and leaves the analyzer
    as it was. *)
Theorem run_without_login :
  forall (parse_datetime : list cell -> cell -> option Z) (fm : float_means)
         (self : FinancialDataAnalyzer) (w : World),
    ~ login_ok self w ->
    fst (run parse_datetime fm self w) = (None, self) /\
    sent (snd (run parse_datetime fm self w)) = sent w /\
    charts (snd (run parse_datetime fm self w)) = charts w.
Proof.
  intros parse_datetime fm self w H. rewrite (run_login_failed _ _ _ _ H).
  destruct (authenticate_world self w) as (H1 & H2 & _).
  cbn [fst snd]. repeat split; assumption.
Qed.

Lemma run_without_login_witness :
  fst (run iso_parser binary64 (main_analyzer sample_config)
           (sample_world "alice" "guess" (Some sample_response))) =
  (None, main_analyzer sample_config) /\
  sent (snd (run iso_parser binary64 (main_analyzer sample_config)
                 (sample_world "alice" "guess" (Some sample_response)))) = [] /\
  charts (snd (run iso_parser binary64 (main_analyzer sample_config)
                   (sample_world "alice" "guess" (Some sample_response)))) = [].
Proof.
  apply (run_without_login iso_parser binary64 (main_analyzer sample_config)
           (sample_world "alice" "guess" (Some sample_response))).
  intros [_ H]. vm_compute in H. discriminate.
Defined.

(** X17: [run] sends at most one request, and only after a successful
    login: the request goes to the URL of the analyzer, with its API key and
    a page size of 10000. *)
Theorem run_requests :
  forall (parse_datetime : list cell -> cell -> option Z) (fm : float_means)
         (self : FinancialDataAnalyzer) (w : World),
    sent (snd (run parse_datetime fm self w)) =
    sent w ++ (if decide (login_ok self w) then [request_of self 10000] else []).
Proof.
  intros parse_datetime fm self w. destruct (decide (login_ok self w)) as [H | H].
  - apply run_sent_after_login. exact H.
  - rewrite (run_login_failed _ _ _ _ H), app_nil_r. cbn [snd].
    apply authenticate_world.
Qed.

(** X18: the complete run.  After a successful login, when the response has
    a good status, its body is a datatable that normalizes to a table, the
    filter leaves some rows and their means can be computed, [run] ends
    without an exception, the analyzer holds the body as raw data and the
    filtered table as processed data, and one chart is shown: the means per
    date of the filtered table and their moving average over 3 dates. *)
Theorem run_shows_chart :
  forall (parse_datetime : list cell -> cell -> option Z) (fm : float_means)
         (self : FinancialDataAnalyzer) (w : World)
         (response : Response) (raw : RawDataset) (t : Table) (trend : TimeSeries),
    login_ok self w ->
    server w (sent w) (request_of self 10000) = Some response ->
    status_ok response ->
    json response = Some (Datatable raw) ->
    normalize parse_datetime raw = inr t ->
    Filter t <> [] ->
    time_trend fm (Filter t) = inr trend ->
    fst (run parse_datetime fm self w) =
    (None, set_processed_data (set_raw_data self (Datatable raw)) (Filter t)) /\
    charts (snd (run parse_datetime fm self w)) =
    charts w ++ [(trend, rolling_mean fm 3 trend)].
Proof.
  intros parse_datetime fm self w response raw t trend
         Hlogin Hserver Hok Hbody Hn Hne Htrend.
  rewrite (run_processed _ fm _ _ _ _ _ Hlogin Hserver Hok Hbody Hn). cbn zeta.
  rewrite (visualize_trends_series fm
             (set_processed_data (set_raw_data self (Datatable raw)) (Filter t))
             (Filter t) trend eq_refl Hne Htrend).
  split; reflexivity.
Qed.

Lemma run_shows_chart_witness :
  exists (t : Table) (trend : TimeSeries),
    normalize iso_parser sample_body = inr t /\
    time_trend binary64 (Filter t) = inr trend /\
    fst (run iso_parser binary64 (main_analyzer sample_config)
             (sample_world "alice" "s3cret" (Some sample_response))) =
    (None, set_processed_data
             (set_raw_data (main_analyzer sample_config) (Datatable sample_body))
             (Filter t)) /\
    charts (snd (run iso_parser binary64 (main_analyzer sample_config)
                     (sample_world "alice" "s3cret" (Some sample_response)))) =
    charts (sample_world "alice" "s3cret" (Some sample_response)) ++
    [(trend, rolling_mean binary64 3 trend)].
Proof.
  destruct (normalize iso_parser sample_body) as [e | t] eqn:Hn;
    [vm_compute in Hn; discriminate |].
  destruct (time_trend binary64 (Filter t)) as [e | trend] eqn:Ht.
  { exfalso. vm_compute in Hn. injection Hn as <-. vm_compute in Ht. discriminate. }
  exists t, trend. split; [reflexivity |]. split; [exact Ht |].
  apply (run_shows_chart iso_parser binary64 (main_analyzer sample_config)
           (sample_world "alice" "s3cret" (Some sample_response))
           sample_response sample_body t trend).
  - split; reflexivity.
  - reflexivity.
  - unfold status_ok. simpl. lia.
  - reflexivity.
  - exact Hn.
  - vm_compute in Hn. injection Hn as <-. vm_compute. discriminate.
  - exact Ht.
Defined.

(** The chart of the sample response, in binary64: one point per date, and
    no moving average, the series being shorter than the window. *)
Example run_sample :
  charts (snd (run iso_parser binary64 (main_analyzer sample_config)
                   (sample_world "alice" "s3cret" (Some sample_response)))) =
  [ ([ (1579046400000000000%Z, Some (25 # 2)); (1586908800000000000%Z, Some (7 # 2)) ],
     [ (1579046400000000000%Z, None); (1586908800000000000%Z, None) ]) ].
Proof. vm_compute. reflexivity. Qed.

(** X19: a chart on the screen means that everything went through: if [run]
    shows a chart, the login succeeded, the response of this very run had a
    good status and a datatable as its body, which normalizes, the filter
    left some rows, the amounts of the dated ones could be averaged, and the
    chart is the series of their means with its moving average over 3 dates.
    [run] never shows more than this one chart. *)
Theorem run_chart_only_if :
  forall (parse_datetime : list cell -> cell -> option Z) (fm : float_means)
         (self : FinancialDataAnalyzer) (w : World),
    charts (snd (run parse_datetime fm self w)) <> charts w ->
    login_ok self w /\
    exists (response : Response) (raw : RawDataset) (t : Table) (trend : TimeSeries),
      server w (sent w) (request_of self 10000) = Some response /\
      status_ok response /\
      json response = Some (Datatable raw) /\
      normalize parse_datetime raw = inr t /\
      Filter t <> [] /\
      Forall (fun r => dated r -> numeric (amount (snd r))) (Filter t) /\
      time_trend fm (Filter t) = inr trend /\
      charts (snd (run parse_datetime fm self w)) =
      charts w ++ [(trend, rolling_mean fm 3 trend)].
Proof.
  intros parse_datetime fm self w Hch.
  destruct (decide (login_ok self w)) as [Hlogin | Hlogin];
    [| exfalso; apply Hch; rewrite (run_login_failed _ _ _ _ Hlogin);
       apply authenticate_world].
  split; [exact Hlogin |].
  destruct (fetch_data_cases self 10000 (after_login w))
    as [(response & raw & Hs & Hok & Hbody) | [(response & e & Hs & Hok & Hbody) | Hfail]].
  - exists response, raw.
    destruct (normalize parse_datetime raw) as [e | t] eqn:Hn.
    + exfalso. apply Hch. rewrite (run_after_login _ _ _ _ Hlogin).
      rewrite (fetch_data_ok self 10000 (after_login w) response raw Hs Hok Hbody).
      unfold process_data, process_body. cbn [raw_data set_raw_data].
      rewrite Hn. reflexivity.
    + exists t.
      pose proof (run_processed parse_datetime fm self w response raw t
                    Hlogin Hs Hok Hbody Hn) as Hrun.
      cbn zeta in Hrun. unfold visualize_trends in Hrun.
      cbn [processed_data set_processed_data] in Hrun.
      destruct (Filter t) as [| r rows] eqn:Hf.
      { exfalso. apply Hch. rewrite Hrun. reflexivity. }
      destruct (time_trend fm (r :: rows)) as [e | trend] eqn:Ht.
      { exfalso. apply Hch. rewrite Hrun. reflexivity. }
      exists trend. repeat split; try assumption; try discriminate.
      * apply (time_trend_succeeds_dated fm). exists trend. exact Ht.
      * rewrite Hrun. reflexivity.
  - exfalso. apply Hch. rewrite (run_after_login _ _ _ _ Hlogin).
    rewrite (fetch_data_malformed self 10000 (after_login w) response e Hs Hok Hbody).
    reflexivity.
  - exfalso. apply Hch. rewrite (run_after_login _ _ _ _ Hlogin).
    rewrite fetch_data_failed by exact Hfail. reflexivity.
Qed.

Lemma run_chart_only_if_witness :
  login_ok (main_analyzer sample_config)
           (sample_world "alice" "s3cret" (Some sample_response)) /\
  exists (response : Response) (raw : RawDataset) (t : Table) (trend : TimeSeries),
    server (sample_world "alice" "s3cret" (Some sample_response))
           (sent (sample_world "alice" "s3cret" (Some sample_response)))
           (request_of (main_analyzer sample_config) 10000) = Some response /\
    status_ok response /\
    json response = Some (Datatable raw) /\
    normalize iso_parser raw = inr t /\
    Filter t <> [] /\
    Forall (fun r => dated r -> numeric (amount (snd r))) (Filter t) /\
    time_trend binary64 (Filter t) = inr trend /\
    charts (snd (run iso_parser binary64 (main_analyzer sample_config)
                     (sample_world "alice" "s3cret" (Some sample_response)))) =
    charts (sample_world "alice" "s3cret" (Some sample_response)) ++
    [(trend, rolling_mean binary64 3 trend)].
Proof.
  apply (run_chart_only_if iso_parser binary64 (main_analyzer sample_config)
           (sample_world "alice" "s3cret" (Some sample_response))).
  vm_compute. discriminate.
Defined.

(** A string as the amount of a row without a date does not prevent the
    chart: the row is in no group. *)
Example run_string_amount_undated :
  charts (snd (run iso_parser binary64 (main_analyzer sample_config)
                   (sample_world "alice" "s3cret" (Some sample_response_undated)))) =
  [ ([ (1579046400000000000%Z, Some (25 # 2)) ],
     [ (1579046400000000000%Z, None) ]) ].
Proof. vm_compute. reflexivity. Qed.

(** X20: an empty result is not a failure: when the login and the fetch
    succeed and the body normalizes, but no row passes the filter, [run]
    ends without an exception, stores the empty table as processed data and
    shows no chart. *)
Theorem run_empty_result :
  forall (parse_datetime : list cell -> cell -> option Z) (fm : float_means)
         (self : FinancialDataAnalyzer) (w : World)
         (response : Response) (raw : RawDataset) (t : Table),
    login_ok self w ->
    server w (sent w) (request_of self 10000) = Some response ->
    status_ok response ->
    json response = Some (Datatable raw) ->
    normalize parse_datetime raw = inr t ->
    Filter t = [] ->
    fst (run parse_datetime fm self w) =
    (None, set_processed_data (set_raw_data self (Datatable raw)) []) /\
    charts (snd (run parse_datetime fm self w)) = charts w.
Proof.
  intros parse_datetime fm self w response raw t Hlogin Hserver Hok Hbody Hn Hempty.
  rewrite (run_processed _ fm _ _ _ _ _ Hlogin Hserver Hok Hbody Hn). cbn zeta.
  rewrite Hempty. split; reflexivity.
Qed.

(** X21: a failed fetch stops the run: after a successful login, when the
    request raises or comes back with a status between 400 and 599, [run]
    ends without an exception, shows no chart and leaves the analyzer, raw
    and processed data included, as it was. *)
Theorem run_fetch_failure :
  forall (parse_datetime : list cell -> cell -> option Z) (fm : float_means)
         (self : FinancialDataAnalyzer) (w : World),
    login_ok self w ->
    (server w (sent w) (request_of self 10000) = None \/
     exists response,
       server w (sent w) (request_of self 10000) = Some response /\
       (400 <= status_code response < 600)%Z) ->
    fst (run parse_datetime fm self w) = (None, self) /\
    charts (snd (run parse_datetime fm self w)) = charts w.
Proof.
  intros parse_datetime fm self w Hlogin Hfail.
  rewrite (run_after_login _ _ _ _ Hlogin).
  rewrite fetch_data_failed; [split; reflexivity |].
  destruct Hfail as [H | (response & H & Hbad)]; [left; exact H |].
  right. exists response. split; [exact H | left; exact Hbad].
Qed.

Lemma run_empty_result_witness :
  exists t : Table,
    normalize iso_parser sample_body_revenue = inr t /\
    Filter t = [] /\
    fst (run iso_parser binary64 (main_analyzer sample_config)
             (sample_world "alice" "s3cret" (Some sample_response_revenue))) =
    (None, set_processed_data
             (set_raw_data (main_analyzer sample_config) (Datatable sample_body_revenue))
             []) /\
    charts (snd (run iso_parser binary64 (main_analyzer sample_config)
                     (sample_world "alice" "s3cret" (Some sample_response_revenue)))) =
    charts (sample_world "alice" "s3cret" (Some sample_response_revenue)).
Proof.
  destruct (normalize iso_parser sample_body_revenue) as [e | t] eqn:Hn;
    [vm_compute in Hn; discriminate |].
  assert (Hf : Filter t = []).
  { vm_compute in Hn. injection Hn as <-. vm_compute. reflexivity. }
  exists t. split; [reflexivity |]. split; [exact Hf |].
  apply (run_empty_result iso_parser binary64 (main_analyzer sample_config)
           (sample_world "alice" "s3cret" (Some sample_response_revenue))
           sample_response_revenue sample_body_revenue t).
  - split; reflexivity.
  - reflexivity.
  - unfold status_ok. simpl. lia.
  - reflexivity.
  - exact Hn.
  - exact Hf.
Defined.

Lemma run_fetch_failure_witness :
  fst (run iso_parser binary64 (main_analyzer sample_config)
           (sample_world "alice" "s3cret" None)) =
  (None, main_analyzer sample_config) /\
  charts (snd (run iso_parser binary64 (main_analyzer sample_config)
                   (sample_world "alice" "s3cret" None))) =
  charts (sample_world "alice" "s3cret" None).
Proof.
  apply (run_fetch_failure iso_parser binary64 (main_analyzer sample_config)
           (sample_world "alice" "s3cret" None)).
  - split; reflexivity.
  - left. reflexivity.
Defined.

(** X11: a body that is not a datatable.  After a successful login and a
    response with a good status:
    - when the body is not JSON, [run] ends like after a failed request:
      no exception, no chart, the analyzer as it was;
    - when the body is JSON but not a datatable, the exception raised by
      the lookup in [fetch_data] escapes from [run]; the body has been stored
      as the raw data, nothing is processed and no chart is shown. *)
Theorem run_bad_body :
  forall (parse_datetime : list cell -> cell -> option Z) (fm : float_means)
         (self : FinancialDataAnalyzer) (w : World) (response : Response),
    login_ok self w ->
    server w (sent w) (request_of self 10000) = Some response ->
    status_ok response ->
    (json response = None ->
     fst (run parse_datetime fm self w) = (None, self)) /\
    (forall e, json response = Some (Malformed e) ->
               fst (run parse_datetime fm self w) =
               (Some e, set_raw_data self (Malformed e))) /\
    ((forall raw, json response <> Some (Datatable raw)) ->
     charts (snd (run parse_datetime fm self w)) = charts w).
Proof.
  intros parse_datetime fm self w response Hlogin Hserver Hok.
  rewrite (run_after_login _ _ _ _ Hlogin). split; [| split].
  - intros Hbody. rewrite fetch_data_failed; [reflexivity |].
    right. exists response. split; [exact Hserver | right; exact Hbody].
  - intros e Hbody.
    rewrite (fetch_data_malformed self 10000 (after_login w) response e Hserver Hok Hbody).
    reflexivity.
  - intros Hbody. destruct (json response) as [[raw | e] |] eqn:E.
    + exfalso. apply (Hbody raw). reflexivity.
    + rewrite (fetch_data_malformed self 10000 (after_login w) response e Hserver Hok E).
      reflexivity.
    + rewrite fetch_data_failed; [reflexivity |].
      right. exists response. split; [exact Hserver | right; exact E].
Qed.

Lemma run_bad_body_witness :
  (json sample_response_malformed = None ->
   fst (run iso_parser binary64 (main_analyzer sample_config)
            (sample_world "alice" "s3cret" (Some sample_response_malformed))) =
   (None, main_analyzer sample_config)) /\
  (forall e, json sample_response_malformed = Some (Malformed e) ->
             fst (run iso_parser binary64 (main_analyzer sample_config)
                      (sample_world "alice" "s3cret" (Some sample_response_malformed))) =
             (Some e, set_raw_data (main_analyzer sample_config) (Malformed e))) /\
  ((forall raw, json sample_response_malformed <> Some (Datatable raw)) ->
   charts (snd (run iso_parser binary64 (main_analyzer sample_config)
                    (sample_world "alice" "s3cret" (Some sample_response_malformed)))) =
   charts (sample_world "alice" "s3cret" (Some sample_response_malformed))).
Proof.
  apply (run_bad_body iso_parser binary64 (main_analyzer sample_config)
           (sample_world "alice" "s3cret" (Some sample_response_malformed))
           sample_response_malformed).
  - split; reflexivity.
  - reflexivity.
  - unfold status_ok. simpl. lia.
Defined.

Example run_malformed_sample :
  fst (run iso_parser binary64 (main_analyzer sample_config)
           (sample_world "alice" "s3cret" (Some sample_response_malformed))) =
  (Some (KeyError "datatable"),
   set_raw_data (main_analyzer sample_config) (Malformed (KeyError "datatable"))).
Proof. reflexivity. Qed.

(** X22: [main] asks for the credentials of the [config] module before
    anything else: a request is sent exactly when the two lines typed are
    the configured user name and password, and it is then the one request to
    the NASDAQ endpoint with the configured API key and a page size of
    10000. *)
Theorem main_requests :
  forall (parse_datetime : list cell -> cell -> option Z) (fm : float_means)
         (config : config_module) (w : World),
    sent (snd (main parse_datetime fm config w)) =
    sent w ++
    (if decide (typed w (length (prompts w)) = config_username config /\
                typed w (S (length (prompts w))) = config_password config)
     then [ {| req_url := "https://data.nasdaq.com/api/v3/datatables/MER/F1";
               req_params := [ ("api_key", PStr (config_api_key config));
                               ("qopts.per_page", PInt 10000) ] |} ]
     else []).
Proof.
  intros parse_datetime fm config w. unfold main.
  destruct (decide _) as [H | H].
  - apply (run_sent_after_login parse_datetime fm (main_analyzer config) w H).
  - rewrite (run_login_failed parse_datetime fm (main_analyzer config) w H), app_nil_r.
    cbn [snd]. apply authenticate_world.
Qed.

(** ** Stale data *)

(** X23: data that cannot be processed do not clear the earlier result.
    When an analyzer that holds a processed table fetches a new body
    successfully and [process_data] then fails on it, the processed data
    are still the earlier table, and [visualize_trends] plots exactly what it
    plotted before the fetch. *)
Theorem stale_chart_after_failed_processing :
  forall (parse_datetime : list cell -> cell -> option Z) (fm : float_means)
         (self : FinancialDataAnalyzer) (records_per_page : Z) (w : World)
         (window_size : nat),
    fst (fst (fetch_data self records_per_page w)) = inr true ->
    snd (process_data parse_datetime
           (snd (fst (fetch_data self records_per_page w)))) = None ->
    processed_data
      (fst (process_data parse_datetime
              (snd (fst (fetch_data self records_per_page w))))) =
    processed_data self /\
    visualize_trends fm
      (fst (process_data parse_datetime
              (snd (fst (fetch_data self records_per_page w))))) window_size =
    visualize_trends fm self window_size.
Proof.
  intros parse_datetime fm self n w ws Hfetch Hproc.
  rewrite (process_data_fail _ _ Hproc). cbn [fst].
  destruct (fetch_data_cases self n w)
    as [(response & raw & Hs & Hok & Hbody) | [(response & e & Hs & Hok & Hbody) | Hfail]].
  - rewrite (fetch_data_ok self n w response raw Hs Hok Hbody). split; reflexivity.
  - rewrite (fetch_data_malformed self n w response e Hs Hok Hbody). split; reflexivity.
  - rewrite (fetch_data_failed self n w Hfail). split; reflexivity.
Qed.

Lemma stale_chart_after_failed_processing_witness :
  processed_data
    (fst (process_data iso_parser
            (snd (fst (fetch_data (sample_analyzer sample_dataset) 10000
                         (sample_world "alice" "s3cret"
                            (Some sample_response_without_amount))))))) =
  processed_data (sample_analyzer sample_dataset) /\
  visualize_trends binary64
    (fst (process_data iso_parser
            (snd (fst (fetch_data (sample_analyzer sample_dataset) 10000
                         (sample_world "alice" "s3cret"
                            (Some sample_response_without_amount))))))) 3 =
  visualize_trends binary64 (sample_analyzer sample_dataset) 3.
Proof.
  apply (stale_chart_after_failed_processing iso_parser binary64
           (sample_analyzer sample_dataset)
           10000 (sample_world "alice" "s3cret" (Some sample_response_without_amount)) 3).
  - reflexivity.
  - vm_compute. reflexivity.
Defined.
